(** * simple-http-server: the request handler of [main.go], verified

    A shallow embedding of [main.go]: the path resolution of [ServeHTTP], the
    file and directory responders, the listing template with its helper
    functions, and [getMimeType].

    Go strings are byte sequences ([list ascii]).  The handler runs in a small
    state monad that threads the filesystem it reads, the [http.ResponseWriter]
    it fills and the list of operating-system calls it has made; a nil
    dereference aborts the computation.

    The functions of Go's standard library that the program calls ([strings]
    with [unicode] and [unicode/utf8] below it, [path/filepath], [os],
    [net/http], [fmt], [time], [sort]) are modelled by their documented
    behaviour on a Unix host (separator [/], no volume names); the model of
    [path/filepath] is run on the tables of Go's own tests below.
    [main] is embedded from the values of its flags up to the call of
    [ListenAndServe]; what it establishes, an absolute serve path, is the
    first case of [ServePathResolves]. *)

From Stdlib Require Import List Ascii String ZArith Lia Bool Arith.
From Stdlib Require Import Permutation Sorted DecimalString.
Import ListNotations.
Open Scope string_scope.
Open Scope list_scope.

(** ** Go strings *)

Definition gostring := list ascii.

Coercion list_ascii_of_string : string >-> list.

Definition byte_eqb (a b : ascii) : bool := Ascii.eqb a b.

Fixpoint gostring_eqb (a b : gostring) : bool :=
  match a, b with
  | [], [] => true
  | x :: a', y :: b' => byte_eqb x y && gostring_eqb a' b'
  | _, _ => false
  end.

(** Go's [<] on strings: lexicographic on bytes. *)
Fixpoint gostring_ltb (a b : gostring) : bool :=
  match a, b with
  | _, [] => false
  | [], _ :: _ => true
  | x :: a', y :: b' =>
      if (nat_of_ascii x <? nat_of_ascii y)%nat then true
      else if (nat_of_ascii y <? nat_of_ascii x)%nat then false
      else gostring_ltb a' b'
  end.

Definition Separator : ascii := "/"%char.

Definition IsPathSeparator (c : ascii) : bool := byte_eqb c Separator.

(** ** Package [unicode/utf8] *)

Module utf8.

Local Open Scope Z_scope.

Definition RuneError : Z := 0xFFFD.
Definition RuneSelf : Z := 0x80.
Definition MaxRune : Z := 0x10FFFF.

(** The value of a byte, and the conversion [byte(x)]. *)
Definition code (c : ascii) : Z := Z.of_N (N_of_ascii c).
Definition byte (x : Z) : ascii := ascii_of_N (Z.to_N (x mod 256)).

(** The table [first]: for the first byte of a sequence of several bytes,
    the length of the sequence and the range its second byte must be in. *)
Definition first (b0 : Z) : option (nat * Z * Z) :=
  if b0 <? 0xC2 then None
  else if b0 <=? 0xDF then Some (2%nat, 0x80, 0xBF)
  else if b0 =? 0xE0 then Some (3%nat, 0xA0, 0xBF)
  else if b0 =? 0xED then Some (3%nat, 0x80, 0x9F)
  else if b0 <=? 0xEF then Some (3%nat, 0x80, 0xBF)
  else if b0 =? 0xF0 then Some (4%nat, 0x90, 0xBF)
  else if b0 <=? 0xF3 then Some (4%nat, 0x80, 0xBF)
  else if b0 =? 0xF4 then Some (4%nat, 0x80, 0x8F)
  else None.

Definition continuation (b : Z) : bool := (0x80 <=? b) && (b <=? 0xBF).

(** [utf8.DecodeRuneInString]: the first rune of [s] and its width in bytes;
    [(RuneError, 1)] when [s] does not begin with the encoding of a rune. *)
Definition DecodeRuneInString (s : gostring) : Z * nat :=
  match s with
  | [] => (RuneError, 0%nat)
  | c0 :: t =>
      let s0 := code c0 in
      if s0 <? RuneSelf then (s0, 1%nat)
      else
        match first s0, map code t with
        | Some (2%nat, lo, hi), s1 :: _ =>
            if (lo <=? s1) && (s1 <=? hi)
            then (Z.lor (Z.shiftl (Z.land s0 0x1F) 6) (Z.land s1 0x3F), 2%nat)
            else (RuneError, 1%nat)
        | Some (3%nat, lo, hi), s1 :: s2 :: _ =>
            if (lo <=? s1) && (s1 <=? hi) && continuation s2
            then (Z.lor (Z.lor (Z.shiftl (Z.land s0 0x0F) 12)
                               (Z.shiftl (Z.land s1 0x3F) 6))
                        (Z.land s2 0x3F), 3%nat)
            else (RuneError, 1%nat)
        | Some (4%nat, lo, hi), s1 :: s2 :: s3 :: _ =>
            if (lo <=? s1) && (s1 <=? hi) && continuation s2 && continuation s3
            then (Z.lor (Z.lor (Z.lor (Z.shiftl (Z.land s0 0x07) 18)
                                      (Z.shiftl (Z.land s1 0x3F) 12))
                               (Z.shiftl (Z.land s2 0x3F) 6))
                        (Z.land s3 0x3F), 4%nat)
            else (RuneError, 1%nat)
        | _, _ => (RuneError, 1%nat)
        end
  end.

(** [for _, c := range s]: the runes of [s], every byte that begins no
    encoding counting as [RuneError]. *)
Fixpoint runes (s : gostring) : list Z :=
  match s with
  | [] => []
  | _ :: t0 =>
      fst (DecodeRuneInString s)
      :: match snd (DecodeRuneInString s), t0 with
         | 4%nat, _ :: _ :: _ :: t3 => runes t3
         | 3%nat, _ :: _ :: t2 => runes t2
         | 2%nat, _ :: t1 => runes t1
         | _, _ => runes t0
         end
  end.

(** [utf8.AppendRune] to an empty slice: the encoding of [r], that of
    [RuneError] for a surrogate or a value out of range. *)
Definition AppendRune (r : Z) : gostring :=
  if (0 <=? r) && (r <=? 0x7F) then [byte r]
  else if (0 <=? r) && (r <=? 0x7FF) then
    [byte (Z.lor 0xC0 (Z.shiftr r 6)); byte (Z.lor 0x80 (Z.land r 0x3F))]
  else if (r <? 0) || (MaxRune <? r) || ((0xD800 <=? r) && (r <=? 0xDFFF)) then
    [byte 0xEF; byte 0xBF; byte 0xBD]
  else if r <=? 0xFFFF then
    [byte (Z.lor 0xE0 (Z.shiftr r 12));
     byte (Z.lor 0x80 (Z.land (Z.shiftr r 6) 0x3F));
     byte (Z.lor 0x80 (Z.land r 0x3F))]
  else
    [byte (Z.lor 0xF0 (Z.shiftr r 18));
     byte (Z.lor 0x80 (Z.land (Z.shiftr r 12) 0x3F));
     byte (Z.lor 0x80 (Z.land (Z.shiftr r 6) 0x3F));
     byte (Z.lor 0x80 (Z.land r 0x3F))].

End utf8.

(** ** Package [unicode] *)

Module unicode.

Local Open Scope Z_scope.

Definition MaxASCII : Z := 0x7F.

(** The delta of a range of alternating upper- and lower-case letters. *)
Definition UpperLower : Z := utf8.MaxRune + 1.

(** The lower-case column of the table [CaseRanges]: the ranges of letters
    that are not their own lower case, with the distance to it (the simple
    lower-case mappings of the Unicode Character Database, version 14). *)
Definition CaseRanges : list (Z * Z * Z) :=
  [
    (0xC0, 0xD6, 32); (0xD8, 0xDE, 32); (0x100, 0x12F, UpperLower);
    (0x130, 0x130, (-199)); (0x132, 0x137, UpperLower);
    (0x139, 0x148, UpperLower); (0x14A, 0x177, UpperLower);
    (0x178, 0x178, (-121)); (0x179, 0x17E, UpperLower); (0x181, 0x181, 210);
    (0x182, 0x185, UpperLower); (0x186, 0x186, 206); (0x187, 0x187, 1);
    (0x189, 0x18A, 205); (0x18B, 0x18B, 1); (0x18E, 0x18E, 79);
    (0x18F, 0x18F, 202); (0x190, 0x190, 203); (0x191, 0x191, 1);
    (0x193, 0x193, 205); (0x194, 0x194, 207); (0x196, 0x196, 211);
    (0x197, 0x197, 209); (0x198, 0x198, 1); (0x19C, 0x19C, 211);
    (0x19D, 0x19D, 213); (0x19F, 0x19F, 214); (0x1A0, 0x1A5, UpperLower);
    (0x1A6, 0x1A6, 218); (0x1A7, 0x1A7, 1); (0x1A9, 0x1A9, 218);
    (0x1AC, 0x1AC, 1); (0x1AE, 0x1AE, 218); (0x1AF, 0x1AF, 1);
    (0x1B1, 0x1B2, 217); (0x1B3, 0x1B6, UpperLower); (0x1B7, 0x1B7, 219);
    (0x1B8, 0x1B8, 1); (0x1BC, 0x1BC, 1); (0x1C4, 0x1C4, 2);
    (0x1C5, 0x1C5, 1); (0x1C7, 0x1C7, 2); (0x1C8, 0x1C8, 1);
    (0x1CA, 0x1CA, 2); (0x1CB, 0x1DC, UpperLower); (0x1DE, 0x1EF, UpperLower);
    (0x1F1, 0x1F1, 2); (0x1F2, 0x1F5, UpperLower); (0x1F6, 0x1F6, (-97));
    (0x1F7, 0x1F7, (-56)); (0x1F8, 0x21F, UpperLower); (0x220, 0x220, (-130));
    (0x222, 0x233, UpperLower); (0x23A, 0x23A, 10795); (0x23B, 0x23B, 1);
    (0x23D, 0x23D, (-163)); (0x23E, 0x23E, 10792); (0x241, 0x241, 1);
    (0x243, 0x243, (-195)); (0x244, 0x244, 69); (0x245, 0x245, 71);
    (0x246, 0x24F, UpperLower); (0x370, 0x373, UpperLower); (0x376, 0x376, 1);
    (0x37F, 0x37F, 116); (0x386, 0x386, 38); (0x388, 0x38A, 37);
    (0x38C, 0x38C, 64); (0x38E, 0x38F, 63); (0x391, 0x3A1, 32);
    (0x3A3, 0x3AB, 32); (0x3CF, 0x3CF, 8); (0x3D8, 0x3EF, UpperLower);
    (0x3F4, 0x3F4, (-60)); (0x3F7, 0x3F7, 1); (0x3F9, 0x3F9, (-7));
    (0x3FA, 0x3FA, 1); (0x3FD, 0x3FF, (-130)); (0x400, 0x40F, 80);
    (0x410, 0x42F, 32); (0x460, 0x481, UpperLower);
    (0x48A, 0x4BF, UpperLower); (0x4C0, 0x4C0, 15);
    (0x4C1, 0x4CE, UpperLower); (0x4D0, 0x52F, UpperLower);
    (0x531, 0x556, 48); (0x10A0, 0x10C5, 7264); (0x10C7, 0x10C7, 7264);
    (0x10CD, 0x10CD, 7264); (0x13A0, 0x13EF, 38864); (0x13F0, 0x13F5, 8);
    (0x1C90, 0x1CBA, (-3008)); (0x1CBD, 0x1CBF, (-3008));
    (0x1E00, 0x1E95, UpperLower); (0x1E9E, 0x1E9E, (-7615));
    (0x1EA0, 0x1EFF, UpperLower); (0x1F08, 0x1F0F, (-8));
    (0x1F18, 0x1F1D, (-8)); (0x1F28, 0x1F2F, (-8)); (0x1F38, 0x1F3F, (-8));
    (0x1F48, 0x1F4D, (-8)); (0x1F59, 0x1F59, (-8)); (0x1F5B, 0x1F5B, (-8));
    (0x1F5D, 0x1F5D, (-8)); (0x1F5F, 0x1F5F, (-8)); (0x1F68, 0x1F6F, (-8));
    (0x1F88, 0x1F8F, (-8)); (0x1F98, 0x1F9F, (-8)); (0x1FA8, 0x1FAF, (-8));
    (0x1FB8, 0x1FB9, (-8)); (0x1FBA, 0x1FBB, (-74)); (0x1FBC, 0x1FBC, (-9));
    (0x1FC8, 0x1FCB, (-86)); (0x1FCC, 0x1FCC, (-9)); (0x1FD8, 0x1FD9, (-8));
    (0x1FDA, 0x1FDB, (-100)); (0x1FE8, 0x1FE9, (-8));
    (0x1FEA, 0x1FEB, (-112)); (0x1FEC, 0x1FEC, (-7));
    (0x1FF8, 0x1FF9, (-128)); (0x1FFA, 0x1FFB, (-126));
    (0x1FFC, 0x1FFC, (-9)); (0x2126, 0x2126, (-7517));
    (0x212A, 0x212A, (-8383)); (0x212B, 0x212B, (-8262));
    (0x2132, 0x2132, 28); (0x2160, 0x216F, 16); (0x2183, 0x2183, 1);
    (0x24B6, 0x24CF, 26); (0x2C00, 0x2C2F, 48); (0x2C60, 0x2C60, 1);
    (0x2C62, 0x2C62, (-10743)); (0x2C63, 0x2C63, (-3814));
    (0x2C64, 0x2C64, (-10727)); (0x2C67, 0x2C6C, UpperLower);
    (0x2C6D, 0x2C6D, (-10780)); (0x2C6E, 0x2C6E, (-10749));
    (0x2C6F, 0x2C6F, (-10783)); (0x2C70, 0x2C70, (-10782));
    (0x2C72, 0x2C72, 1); (0x2C75, 0x2C75, 1); (0x2C7E, 0x2C7F, (-10815));
    (0x2C80, 0x2CE3, UpperLower); (0x2CEB, 0x2CEE, UpperLower);
    (0x2CF2, 0x2CF2, 1); (0xA640, 0xA66D, UpperLower);
    (0xA680, 0xA69B, UpperLower); (0xA722, 0xA72F, UpperLower);
    (0xA732, 0xA76F, UpperLower); (0xA779, 0xA77C, UpperLower);
    (0xA77D, 0xA77D, (-35332)); (0xA77E, 0xA787, UpperLower);
    (0xA78B, 0xA78B, 1); (0xA78D, 0xA78D, (-42280));
    (0xA790, 0xA793, UpperLower); (0xA796, 0xA7A9, UpperLower);
    (0xA7AA, 0xA7AA, (-42308)); (0xA7AB, 0xA7AB, (-42319));
    (0xA7AC, 0xA7AC, (-42315)); (0xA7AD, 0xA7AD, (-42305));
    (0xA7AE, 0xA7AE, (-42308)); (0xA7B0, 0xA7B0, (-42258));
    (0xA7B1, 0xA7B1, (-42282)); (0xA7B2, 0xA7B2, (-42261));
    (0xA7B3, 0xA7B3, 928); (0xA7B4, 0xA7C3, UpperLower);
    (0xA7C4, 0xA7C4, (-48)); (0xA7C5, 0xA7C5, (-42307));
    (0xA7C6, 0xA7C6, (-35384)); (0xA7C7, 0xA7CA, UpperLower);
    (0xA7D0, 0xA7D0, 1); (0xA7D6, 0xA7D9, UpperLower); (0xA7F5, 0xA7F5, 1);
    (0xFF21, 0xFF3A, 32); (0x10400, 0x10427, 40); (0x104B0, 0x104D3, 40);
    (0x10570, 0x1057A, 39); (0x1057C, 0x1058A, 39); (0x1058C, 0x10592, 39);
    (0x10594, 0x10595, 39); (0x10C80, 0x10CB2, 64); (0x118A0, 0x118BF, 32);
    (0x16E40, 0x16E5F, 32); (0x1E900, 0x1E921, 34) ].

(** [to(LowerCase, r, caseRange)]: the range that holds [r] decides, and a
    rune in no range is its own lower case.  (Go finds the range by binary
    search; the ranges are disjoint.) *)
Fixpoint to (caseRange : list (Z * Z * Z)) (r : Z) : Z :=
  match caseRange with
  | [] => r
  | (lo, hi, delta) :: rest =>
      if (lo <=? r) && (r <=? hi) then
        if delta =? UpperLower
        then lo + Z.lor (Z.ldiff (r - lo) 1) 1
        else r + delta
      else to rest r
  end.

(** [unicode.ToLower]. *)
Definition ToLower (r : Z) : Z :=
  if r <=? MaxASCII then
    if (65 <=? r) && (r <=? 90) then r + 32 else r
  else to CaseRanges r.

End unicode.

(** ** Package [strings] *)

Module strings.

Fixpoint HasPrefix (s prefix : gostring) : bool :=
  match prefix, s with
  | [], _ => true
  | p :: ps, c :: cs => byte_eqb c p && HasPrefix cs ps
  | _ :: _, [] => false
  end.

Definition TrimPrefix (s prefix : gostring) : gostring :=
  if HasPrefix s prefix then skipn (List.length prefix) s else s.

Fixpoint Contains (s substr : gostring) : bool :=
  HasPrefix s substr ||
  match s with
  | [] => false
  | _ :: cs => Contains cs substr
  end.

(** [strings.Split] for a one-byte separator, the only form the program
    uses: [Split "a/b" "/" = ["a"; "b"]], [Split "" "/" = [""]]. *)
Fixpoint Split (s : gostring) (sep : ascii) : list gostring :=
  match s with
  | [] => [[]]
  | c :: cs =>
      if byte_eqb c sep then [] :: Split cs sep
      else match Split cs sep with
           | h :: t => (c :: h) :: t
           | [] => [[c]]
           end
  end.

Fixpoint Join (elems : list gostring) (sep : gostring) : gostring :=
  match elems with
  | [] => []
  | [e] => e
  | e :: rest => e ++ sep ++ Join rest sep
  end.

Definition isASCII (s : gostring) : bool :=
  forallb (fun c => (nat_of_ascii c <? 128)%nat) s.

Definition lowerByte (c : ascii) : ascii :=
  let n := nat_of_ascii c in
  if ((65 <=? n) && (n <=? 90))%nat then ascii_of_nat (n + 32) else c.

(** [strings.Map]: the runes of [s] mapped one by one and encoded again; a
    rune mapped to a negative value is dropped.  (Go copies the string as
    long as nothing changes, which gives the same bytes: a rune that is
    validly encoded is encoded the same way again.) *)
Definition Map (mapping : Z -> Z) (s : gostring) : gostring :=
  flat_map (fun c => let r := mapping c in
                     if (r <? 0)%Z then [] else utf8.AppendRune r)
           (utf8.runes s).

(** [strings.ToLower]: a string of ASCII bytes is lowered byte by byte, any
    other string rune by rune with [unicode.ToLower]. *)
Definition ToLower (s : gostring) : gostring :=
  if isASCII s then map lowerByte s else Map unicode.ToLower s.

End strings.

(** ** Package [path/filepath] (Unix) *)

Module filepath.

Definition isDot (e : gostring) : bool := gostring_eqb e ".".
Definition isDotDot (e : gostring) : bool := gostring_eqb e "..".

(** One path element of [Clean]: [out] is the stack of elements kept so
    far, last one first.  Empty and [.] elements are dropped; [..] removes
    the last real element, is dropped at the root of a rooted path and is
    kept at the start of a relative one. *)
Definition cleanStep (rooted : bool) (out : list gostring) (e : gostring)
  : list gostring :=
  match e with
  | [] => out
  | _ =>
    if isDot e then out
    else if isDotDot e then
      match out with
      | top :: rest => if isDotDot top then e :: out else rest
      | [] => if rooted then [] else [e]
      end
    else e :: out
  end.

Definition isRooted (path : gostring) : bool :=
  match path with
  | c :: _ => IsPathSeparator c
  | [] => false
  end.

Definition cleanElems (rooted : bool) (path : gostring) : list gostring :=
  fold_left (cleanStep rooted) (strings.Split path Separator) [].

Definition render (rooted : bool) (out : list gostring) : gostring :=
  if rooted then Separator :: strings.Join (rev out) "/"
  else match out with
       | [] => "."
       | _ => strings.Join (rev out) "/"
       end.

(** [filepath.Clean]: the shortest path equivalent to [path] by purely
    lexical processing. *)
Definition Clean (path : gostring) : gostring :=
  match path with
  | [] => "."
  | _ => render (isRooted path) (cleanElems (isRooted path) path)
  end.

(** [filepath.Join]: the elements from the first non-empty one on are joined
    with the separator and cleaned; the result is empty when all are. *)
Fixpoint Join (elem : list gostring) : gostring :=
  match elem with
  | [] => []
  | [] :: rest => Join rest
  | _ :: _ => Clean (strings.Join elem "/")
  end.

Definition IsAbs (path : gostring) : bool := strings.HasPrefix path "/".

(** [filepath.Ext]: the suffix beginning at the final dot in the final
    element of [path]; [scanExt] walks the reversed path. *)
Fixpoint scanExt (rpath : gostring) (suffix : gostring) : gostring :=
  match rpath with
  | [] => []
  | c :: r =>
      if IsPathSeparator c then []
      else if byte_eqb c "."%char then c :: suffix
      else scanExt r (c :: suffix)
  end.

Definition Ext (path : gostring) : gostring := scanExt (rev path) [].

Fixpoint dropSeparators (rpath : gostring) : gostring :=
  match rpath with
  | c :: r => if IsPathSeparator c then dropSeparators r else rpath
  | [] => []
  end.

Fixpoint lastElement (rpath : gostring) (acc : gostring) : gostring :=
  match rpath with
  | c :: r => if IsPathSeparator c then acc else lastElement r (c :: acc)
  | [] => acc
  end.

(** [filepath.Base]: the last element of [path], trailing separators
    removed first. *)
Definition Base (path : gostring) : gostring :=
  match path with
  | [] => "."
  | _ =>
    match lastElement (dropSeparators (rev path)) [] with
    | [] => [Separator]
    | b => b
    end
  end.

End filepath.

(** ** Package [time] *)

Module time.

(** A [time.Time] by its civil fields in its own location. *)
Record Time := mkTime { Year : Z; Month : Z; Day : Z; Hour : Z; Minute : Z }.

End time.

(** ** Package [os]: the filesystem as the handler reads it *)

Module os.

(** A Go [error] of package [os]: whether [os.IsNotExist] holds of it, and
    its message. *)
Record error := mkError { IsNotExist : bool; Error : gostring }.

(** A Go [(value, err)] pair with [err != nil] exactly when there is no
    value. *)
Inductive result (A : Type) :=
| Ok (a : A)
| Err (e : error).
Arguments Ok {A} a.
Arguments Err {A} e.

(** [os.IsNotExist(err)], false of the nil error. *)
Definition resultIsNotExist {A} (r : result A) : bool :=
  match r with
  | Ok _ => false
  | Err e => IsNotExist e
  end.

(** [os.FileInfo]. *)
Record FileInfo := mkFileInfo
  { Name : gostring; Size : Z; IsDir : bool; ModTime : time.Time }.

(** [os.DirEntry]: [Info] may fail, for an entry removed since the
    directory was read. *)
Record DirEntry := mkDirEntry
  { entryName : gostring; entryIsDir : bool; Info : result FileInfo }.

(** An open [*os.File]: what its [Stat] answers and the bytes [io.Copy]
    reads from it. *)
Record File := mkFile { fileStat : result FileInfo; fileContents : gostring }.

End os.

(** The host as the handler sees it: the working directory and what
    [os.Stat], [os.Open] and [os.ReadDir] answer for each path. *)
Record World := mkWorld
  { Getwd : os.result gostring;
    Stat : gostring -> os.result os.FileInfo;
    Open : gostring -> os.result os.File;
    ReadDir : gostring -> os.result (list os.DirEntry) }.

Inductive Syscall :=
| SysGetwd
| SysStat (name : gostring)
| SysOpen (name : gostring)
| SysFstat
| SysRead
| SysClose
| SysReadDir (name : gostring)
| SysLstat (name : gostring).

(** ** Package [net/http] *)

Module http.

Definition StatusOK : Z := 200.
Definition StatusForbidden : Z := 403.
Definition StatusNotFound : Z := 404.
Definition StatusInternalServerError : Z := 500.

Definition Header := list (gostring * gostring).

(** [Header.Set]. *)
Definition headerSet (key value : gostring) (h : Header) : Header :=
  filter (fun kv => negb (gostring_eqb (fst kv) key)) h ++ [(key, value)].

(** The state of an [http.ResponseWriter]: the header map, the status and
    headers already sent (if any), and the body written so far. *)
Record ResponseWriter := mkResponseWriter
  { header : Header; sent : option (Z * Header); body : gostring }.

Definition newResponseWriter : ResponseWriter := mkResponseWriter [] None [].

Definition setHeader (key value : gostring) (w : ResponseWriter) : ResponseWriter :=
  mkResponseWriter (headerSet key value (header w)) (sent w) (body w).

Definition WriteHeader (code : Z) (w : ResponseWriter) : ResponseWriter :=
  match sent w with
  | Some _ => w
  | None => mkResponseWriter (header w) (Some (code, header w)) (body w)
  end.

(** [w.Write]: sends status 200 first when no status was sent. *)
Definition Write (data : gostring) (w : ResponseWriter) : ResponseWriter :=
  let w' := WriteHeader StatusOK w in
  mkResponseWriter (header w') (sent w') (body w' ++ data).

Record Request := mkRequest
  { Method : gostring; URL_Path : gostring; RequestHeader : Header;
    RequestBody : gostring }.

(** What the client receives. *)
Record Response := mkResponse
  { Status : Z; Headers : Header; Body : gostring }.

(** The response of a handler that returned: status 200 when it sent
    none. *)
Definition finish (w : ResponseWriter) : Response :=
  match sent w with
  | Some (code, h) => mkResponse code h (body w)
  | None => mkResponse StatusOK (header w) (body w)
  end.

End http.

(** ** [float64] values and package [fmt] *)

Open Scope Z_scope.

(** A finite [float64] as the dyadic rational [mant * 2 ^ exp]. *)
Record float64 := mkFloat { mant : Z; exp : Z }.

(** The conversion [float64(n)] of an [int64]: exact up to 53 significant
    bits, beyond that rounded to 53 bits, ties to the even mantissa. *)
Definition float64_of_int64 (n : Z) : float64 :=
  let a := Z.abs n in
  let bits := Z.log2 a + 1 in
  if bits <=? 53 then mkFloat n 0
  else
    let sh := bits - 53 in
    let q := Z.shiftr a sh in
    let r := a mod 2 ^ sh in
    let half := 2 ^ (sh - 1) in
    let q' := if (half <? r) || ((r =? half) && Z.odd q) then q + 1 else q in
    mkFloat (Z.sgn n * q') sh.

(** The quotient [x / d] for a divisor [d = 2 ^ k]: exact in binary floating
    point at the magnitudes of a byte count. *)
Definition float64_div_pow2 (x : float64) (k : Z) : float64 :=
  mkFloat (mant x) (exp x - k).

Module fmt.

Definition decimal (n : Z) : gostring :=
  list_ascii_of_string (NilZero.string_of_int (Z.to_int n)).

(** [%d]. *)
Definition Sprintf_d (n : Z) : gostring := decimal n.

(** The number of tenths nearest to [|x|], an exact tie going to the even
    one: how [strconv] rounds the exact decimal expansion of a float. *)
Definition tenths (x : float64) : Z :=
  let num := 10 * Z.abs (mant x) * 2 ^ Z.max (exp x) 0 in
  let den := 2 ^ Z.max (- exp x) 0 in
  let q := num / den in
  let r := num mod den in
  if (den <? 2 * r) || ((2 * r =? den) && Z.odd q) then q + 1 else q.

(** The digits of [t] tenths: integer part, point, one decimal. *)
Definition oneDecimal (t : Z) : gostring :=
  decimal (t / 10) ++ "." ++ decimal (t mod 10).

(** [%.1f]. *)
Definition Sprintf_1f (x : float64) : gostring :=
  (if mant x <? 0 then "-" : gostring else []) ++ oneDecimal (tenths x).

(** A number as [time.Format] writes a field: the sign of a negative one,
    then its magnitude padded with zeros to [width] digits. *)
Definition padded (width : nat) (n : Z) : gostring :=
  let d := decimal (Z.abs n) in
  (if n <? 0 then "-" : gostring else [])
  ++ repeat "0"%char (width - List.length d)%nat ++ d.

End fmt.

(** [t.Format("2006-01-02 15:04")]: the year in four digits or more, the
    other fields in two. *)
Definition Format_2006_01_02_15_04 (t : time.Time) : gostring :=
  fmt.padded 4 (time.Year t) ++ "-" ++ fmt.padded 2 (time.Month t) ++ "-"
  ++ fmt.padded 2 (time.Day t) ++ " " ++ fmt.padded 2 (time.Hour t) ++ ":"
  ++ fmt.padded 2 (time.Minute t).

(** ** Package [sort] *)

Module sort.

Section Slice.
Context {A : Type} (less : A -> A -> bool).

Fixpoint insert (x : A) (l : list A) : list A :=
  match l with
  | [] => [x]
  | y :: t => if less x y then x :: y :: t else y :: insert x t
  end.

(** [sort.Slice]: the slice sorted by [less].  Go does not promise a stable
    sort; on elements that [less] orders strictly and totally every sorting
    algorithm gives this result ([sorted_permutation_unique] below). *)
Definition Slice (l : list A) : list A := fold_right insert [] l.

End Slice.

End sort.

(** ** What the program takes from Go's runtime library

    [html/template] escapes every value it inserts according to the place
    it is inserted at; the escapers are part of Go's library and are
    parameters here. *)
Class Runtime := mkRuntime
  { (** inside [<title>] *)
    rcdataEscaper : gostring -> gostring;
    (** in element content *)
    htmlEscaper : gostring -> gostring;
    (** in a quoted [href] attribute *)
    hrefEscaper : gostring -> gostring }.

(** ** The handler monad *)

Record State := mkState
  { world : World; writer : http.ResponseWriter; trace : list Syscall }.

Inductive Res (A : Type) :=
| Val (a : A)
| Panic.
Arguments Val {A} a.
Arguments Panic {A}.

Definition M (A : Type) := State -> Res A * State.

Definition ret {A} (a : A) : M A := fun s => (Val a, s).

Definition bind {A B} (m : M A) (k : A -> M B) : M B :=
  fun s => match m s with
           | (Val a, s') => k a s'
           | (Panic, s') => (Panic, s')
           end.

Notation "x <- m ;; k" := (bind m (fun x => k))
  (at level 61, m at next level, right associativity).
Notation "m ;;; k" := (bind m (fun _ => k))
  (at level 61, right associativity).

(** A nil dereference. *)
Definition panic {A} : M A := fun s => (Panic, s).

(** A call into the operating system: recorded, answered by the world. *)
Definition syscall {A} (c : Syscall) (answer : World -> A) : M A :=
  fun s => (Val (answer (world s)),
            mkState (world s) (writer s) (trace s ++ [c])).

Definition onWriter (f : http.ResponseWriter -> http.ResponseWriter) : M unit :=
  fun s => (Val tt, mkState (world s) (f (writer s)) (trace s)).

(** ** The program: [main.go] *)

Record FileInfo := mkFileInfo
  { Name : gostring; IsDir : bool; Size : Z; ModTime : time.Time;
    URL : gostring }.

Record DirectoryListing := mkDirectoryListing
  { Path : gostring; Files : list FileInfo }.

Record FileServer := mkFileServer { servePath : gostring }.

Definition getMimeType (filename : gostring) : gostring :=
  let ext := strings.ToLower (filepath.Ext filename) in
  if gostring_eqb ext ".html" || gostring_eqb ext ".htm" then "text/html"
  else if gostring_eqb ext ".css" then "text/css"
  else if gostring_eqb ext ".js" then "application/javascript"
  else if gostring_eqb ext ".json" then "application/json"
  else if gostring_eqb ext ".png" then "image/png"
  else if gostring_eqb ext ".jpg" || gostring_eqb ext ".jpeg" then "image/jpeg"
  else if gostring_eqb ext ".gif" then "image/gif"
  else if gostring_eqb ext ".svg" then "image/svg+xml"
  else if gostring_eqb ext ".pdf" then "application/pdf"
  else if gostring_eqb ext ".txt" then "text/plain"
  else if gostring_eqb ext ".md" then "text/markdown"
  else "application/octet-stream".

(** The template function [formatBytes]. *)
Definition formatBytes (bytes : Z) : gostring :=
  if bytes <? 1024 then
    fmt.Sprintf_d bytes ++ " B"
  else if bytes <? 1024 * 1024 then
    fmt.Sprintf_1f (float64_div_pow2 (float64_of_int64 bytes) 10) ++ " KB"
  else
    fmt.Sprintf_1f (float64_div_pow2 (float64_of_int64 bytes) 20) ++ " MB".

(** The template function [dirname]. *)
Definition dirname (path : gostring) : gostring :=
  let parts := strings.Split path "/" in
  if (List.length parts <=? 1)%nat then []
  else strings.Join (firstn (List.length parts - 1) parts) "/".

(** The double quote, and the two icons of the template (the bytes of the
    source file). *)
Definition dq : gostring := [ascii_of_nat 34].
Definition dirIcon : gostring :=
  map ascii_of_nat [239; 163; 191; 195; 188; 195; 172; 195; 133]%nat.
Definition fileIcon : gostring :=
  map ascii_of_nat [239; 163; 191; 195; 188; 195; 172; 195; 145]%nat.

(** The link of the parent-directory row:
    [{{if eq (len (split .Path "/")) 1}}/{{else}}{{.Path | dirname}}/{{end}}]. *)
Definition parentHref `{Runtime} (path : gostring) : gostring :=
  if (List.length (strings.Split path "/") =? 1)%nat then "/"
  else hrefEscaper (dirname path) ++ "/".

(** The row [{{if .Path}} ... {{end}}] of the template. *)
Definition parentRow `{Runtime} (path : gostring) : gostring :=
  "
            <tr>
                <td><a href=" ++ dq ++ parentHref path ++ dq ++ ">" ++ dirIcon ++ " ..</a></td>
                <td><span class=" ++ dq ++ "dir-icon" ++ dq ++ ">" ++ dirIcon ++ "</span> Directory</td>
                <td>-</td>
                <td>-</td>
            </tr>
            ".

(** The size column: [{{if .IsDir}}-{{else}}{{.Size | formatBytes}}{{end}}]. *)
Definition sizeCell `{Runtime} (f : FileInfo) : gostring :=
  if IsDir f then "-" else htmlEscaper (formatBytes (Size f)).

(** One turn of [{{range .Files}} ... {{end}}]. *)
Definition fileRow `{Runtime} (f : FileInfo) : gostring :=
  "
            <tr>
                <td><a href=" ++ dq ++ hrefEscaper (URL f) ++ dq ++ ">"
  ++ (if IsDir f then dirIcon else fileIcon) ++ " " ++ htmlEscaper (Name f)
  ++ "</a></td>
                <td>"
  ++ (if IsDir f then "Directory" else "File")
  ++ "</td>
                <td>"
  ++ sizeCell f
  ++ "</td>
                <td>"
  ++ htmlEscaper (Format_2006_01_02_15_04 (ModTime f))
  ++ "</td>
            </tr>
            ".

Definition isEmpty (s : gostring) : bool :=
  match s with
  | [] => true
  | _ => false
  end.

(** The template [tmpl] executed on [listing]. *)
Definition executeTemplate `{Runtime} (listing : DirectoryListing) : gostring :=
    ("<!DOCTYPE html>
<html>
<head>
    <title>Directory listing for " ++ rcdataEscaper (Path listing)
     ++ "</title>
    <style>
        body { font-family: Arial, sans-serif; margin: 20px; }
        h1 { color: #333; }
        table { border-collapse: collapse; width: 100%; }
        th, td { border: 1px solid #ddd; padding: 8px; text-align: left; }
        th { background-color: #f2f2f2; }
        a { text-decoration: none; color: #0066cc; }
        a:hover { text-decoration: underline; }
        .file-icon { color: #666; }
        .dir-icon { color: #ff6600; }
    </style>
</head>
<body>
    <h1>Directory listing for " ++ htmlEscaper (Path listing)
     ++ "</h1>
    <table>
        <thead>
            <tr>
                <th>Name</th>
                <th>Type</th>
                <th>Size</th>
                <th>Modified</th>
            </tr>
        </thead>
        <tbody>
            "
     ++ (if isEmpty (Path listing) then [] else parentRow (Path listing))
     ++ "
            "
     ++ List.concat (map fileRow (Files listing))
     ++ "
        </tbody>
    </table>
</body>
</html>").

(** [generateDirectoryHTML]: parsing and executing this template cannot
    fail. *)
Definition generateDirectoryHTML `{Runtime} (listing : DirectoryListing)
  : os.result gostring :=
  os.Ok (executeTemplate listing).

(** [http.Error]: a plain-text reply with the given status. *)
Definition http_Error (error : gostring) (code : Z) : M unit :=
  onWriter (fun w =>
    http.Write (error ++ [ascii_of_nat 10])
      (http.WriteHeader code
         (http.setHeader "X-Content-Type-Options" "nosniff"
            (http.setHeader "Content-Type" "text/plain; charset=utf-8" w)))).

(** [filepath.Abs]: a rooted path is cleaned; any other is joined to the
    working directory, which has to be asked for. *)
Definition filepath_Abs (path : gostring) : M (os.result gostring) :=
  if filepath.IsAbs path then ret (os.Ok (filepath.Clean path))
  else
    wd <- syscall SysGetwd Getwd ;;
    match wd with
    | os.Err err => ret (os.Err err)
    | os.Ok wd => ret (os.Ok (filepath.Join [wd; path]))
    end.

Definition serveFile (fs : FileServer) (r : http.Request)
  (filePath : gostring) : M unit :=
  opened <- syscall (SysOpen filePath) (fun wd => Open wd filePath) ;;
  match opened with
  | os.Err err =>
      http_Error ("Error reading file: " ++ os.Error err)
        http.StatusInternalServerError
  | os.Ok file =>
      (* defer file.Close() *)
      (stat <- syscall SysFstat (fun _ => os.fileStat file) ;;
       match stat with
       | os.Err err =>
           http_Error ("Error reading file: " ++ os.Error err)
             http.StatusInternalServerError
       | os.Ok info =>
           let filename := filepath.Base filePath in
           onWriter (http.setHeader "Content-Type" (getMimeType filename)) ;;;
           onWriter (http.setHeader "Content-Length"
                       (fmt.Sprintf_d (os.Size info))) ;;;
           onWriter (http.setHeader "Content-Disposition"
                       ("attachment; filename=" ++ dq ++ filename ++ dq)) ;;;
           data <- syscall SysRead (fun _ => os.fileContents file) ;;
           onWriter (http.Write data)
       end) ;;;
      syscall SysClose (fun _ => tt)
  end.

(** The [FileInfo] built for one directory entry (lines 161-178). *)
Definition entryFileInfo (urlPath : gostring) (entry : os.DirEntry)
  (info : os.FileInfo) : FileInfo :=
  let url :=
    if negb (isEmpty urlPath)
    then "/" ++ urlPath ++ "/" ++ os.entryName entry
    else "/" ++ os.entryName entry in
  let url := if os.entryIsDir entry then url ++ "/" else url in
  mkFileInfo (os.entryName entry) (os.entryIsDir entry)
    (os.Size info) (os.ModTime info) url.

(** The loop over the entries: an entry whose [Info] fails is skipped. *)
Fixpoint rangeEntries (urlPath : gostring) (entries : list os.DirEntry)
  (files : list FileInfo) : M (list FileInfo) :=
  match entries with
  | [] => ret files
  | entry :: rest =>
      info <- syscall (SysLstat (os.entryName entry))
                (fun _ => os.Info entry) ;;
      match info with
      | os.Err _ => rangeEntries urlPath rest files
      | os.Ok info =>
          rangeEntries urlPath rest (files ++ [entryFileInfo urlPath entry info])
      end
  end.

(** The order of the listing: directories first, then by name. *)
Definition lessFile (a b : FileInfo) : bool :=
  if negb (Bool.eqb (IsDir a) (IsDir b)) then IsDir a
  else gostring_ltb (Name a) (Name b).

Definition serveDirectory `{Runtime} (fs : FileServer) (r : http.Request)
  (dirPath urlPath : gostring) : M unit :=
  read <- syscall (SysReadDir dirPath) (fun wd => ReadDir wd dirPath) ;;
  match read with
  | os.Err err =>
      http_Error ("Error reading directory: " ++ os.Error err)
        http.StatusInternalServerError
  | os.Ok entries =>
      files <- rangeEntries urlPath entries [] ;;
      let files := sort.Slice lessFile files in
      let listing := mkDirectoryListing urlPath files in
      match generateDirectoryHTML listing with
      | os.Err err =>
          http_Error ("Error generating HTML: " ++ os.Error err)
            http.StatusInternalServerError
      | os.Ok html =>
          onWriter (http.setHeader "Content-Type" "text/html; charset=utf-8") ;;;
          onWriter (http.Write html)
      end
  end.

Definition ServeHTTP `{Runtime} (fs : FileServer) (r : http.Request) : M unit :=
  let path := strings.TrimPrefix (http.URL_Path r) "/" in
  if strings.Contains path ".." || strings.HasPrefix path "/" then
    http_Error "Forbidden: Directory traversal not allowed" http.StatusForbidden
  else
    let fullPath := filepath.Join [servePath fs; path] in
    abs <- filepath_Abs fullPath ;;
    match abs with
    | os.Err _ => http_Error "Not Found" http.StatusNotFound
    | os.Ok absPath =>
        serveAbs <- filepath_Abs (servePath fs) ;;
        let serveAbsPath :=
          match serveAbs with
          | os.Ok p => p
          | os.Err _ => []
          end in
        if negb (strings.HasPrefix absPath serveAbsPath) then
          http_Error "Forbidden: Path outside serve directory"
            http.StatusForbidden
        else
          stat <- syscall (SysStat absPath) (fun wd => Stat wd absPath) ;;
          if os.resultIsNotExist stat then
            http_Error "Not Found" http.StatusNotFound
          else
            match stat with
            | os.Err _ => panic
            | os.Ok info =>
                if os.IsDir info
                then serveDirectory fs r absPath path
                else serveFile fs r absPath
            end
    end.

(** ** What the client sees *)

Inductive Outcome :=
| Replied (resp : http.Response)
| Aborted.

(** One request served against [wd] with a fresh [ResponseWriter].  When
    the handler panics before it has written anything, [net/http] closes the
    connection and no response is sent. *)
Definition serve `{Runtime} (fs : FileServer) (wd : World) (r : http.Request)
  : Outcome :=
  match ServeHTTP fs r (mkState wd http.newResponseWriter []) with
  | (Val _, s) => Replied (http.finish (writer s))
  | (Panic, _) => Aborted
  end.

(** ** Startup: [main] *)

(** How [main] ends: [os.Exit] with a status, or [ListenAndServe] on an
    address with the handler it built; either way with what it has printed
    on standard output. *)
Inductive Startup :=
| Exit (code : Z) (stdout : gostring)
| ListenAndServe (stdout : gostring) (addr : gostring) (handler : FileServer).

Definition newline : gostring := [ascii_of_nat 10].

(** [main], from the values [flag.Parse] gives the flags [port] and
    [folder]. *)
Definition main (port : Z) (folder : gostring) : M Startup :=
  if isEmpty folder then
    ret (Exit 1 ("Error: --folder is required" ++ newline))
  else
    abs <- filepath_Abs folder ;;
    match abs with
    | os.Err err =>
        ret (Exit 1 ("Error: Invalid folder path: " ++ os.Error err ++ newline))
    | os.Ok servePath =>
        stat <- syscall (SysStat servePath) (fun wd => Stat wd servePath) ;;
        if os.resultIsNotExist stat then
          ret (Exit 1 ("Error: Folder '" ++ servePath ++ "' does not exist"
                       ++ newline))
        else
          ret (ListenAndServe
                 ("Serving files from: " ++ servePath ++ newline
                  ++ "Server running on: http://localhost:"
                  ++ fmt.Sprintf_d port ++ newline
                  ++ "Press Ctrl+C to stop the server" ++ newline)
                 (":" ++ fmt.Sprintf_d port)
                 (mkFileServer servePath))
    end.

(** ** The spec's notion of containment *)

Definition endsWithSeparator (s : gostring) : bool :=
  match rev s with
  | c :: _ => IsPathSeparator c
  | [] => false
  end.

(** Boundary-aware containment, as the spec words it: [root] is a prefix of
    [candidate] and the prefix ends on an element boundary of [candidate] --
    at its end or before a separator; a root that itself ends in a separator
    (the root directory [/]) ends on a boundary already. *)
Definition boundary_contained (candidate root : gostring) : bool :=
  strings.HasPrefix candidate root
  && (endsWithSeparator root
      || match skipn (List.length root) candidate with
         | [] => true
         | c :: _ => IsPathSeparator c
         end).

(** The working directory that [os.Getwd] reports is a rooted path. *)
Definition WorkingDirectoryRooted (wd : World) : Prop :=
  forall dir, Getwd wd = os.Ok dir -> filepath.isRooted dir = true.

(** The serve path is absolute, as [main] makes it (line 44), or else the
    working directory it is resolved against is rooted. *)
Definition ServePathResolves (wd : World) (servePath : gostring) : Prop :=
  filepath.IsAbs servePath = true \/ WorkingDirectoryRooted wd.

(** ** The vocabulary of the proofs *)

(** An element that [Clean] keeps: not empty and not [.]. *)
Definition kept (e : gostring) : Prop := e <> [] /\ filepath.isDot e = false.

(** What [Clean] keeps of elements among which there is no [..]. *)
Definition keptb (e : gostring) : bool := negb (isEmpty e) && negb (filepath.isDot e).

(** Every element on the stack is kept and free of separators. *)
Definition stackOK (out : list gostring) : Prop :=
  Forall (fun e => kept e /\ ~ In Separator e) out.

(** In a rooted path no [..] stays on the stack. *)
Definition noDotDot (out : list gostring) : Prop :=
  Forall (fun e => filepath.isDotDot e = false) out.

(** [filepath.Abs] as a function of the world. *)
Definition absolute (wd : World) (path : gostring) : os.result gostring :=
  if filepath.IsAbs path then os.Ok (filepath.Clean path)
  else match Getwd wd with
       | os.Err err => os.Err err
       | os.Ok dir => os.Ok (filepath.Join [dir; path])
       end.

(** The files of a listing before they are sorted: one for every entry
    whose [Info] succeeds. *)
Definition listedFiles (urlPath : gostring) (entries : list os.DirEntry)
  : list FileInfo :=
  flat_map (fun entry =>
              match os.Info entry with
              | os.Ok info => [entryFileInfo urlPath entry info]
              | os.Err _ => []
              end) entries.

(** The calls the loop over the entries makes. *)
Definition lstats (entries : list os.DirEntry) : list Syscall :=
  map (fun entry => SysLstat (os.entryName entry)) entries.

(** The reply of [http.Error] on a fresh [ResponseWriter]. *)
Definition errorReply (msg : gostring) (code : Z) : http.Response :=
  http.mkResponse code
    [("Content-Type" : gostring, "text/plain; charset=utf-8" : gostring);
     ("X-Content-Type-Options" : gostring, "nosniff" : gostring)]
    (msg ++ [ascii_of_nat 10]).

Definition forbiddenTraversal : http.Response :=
  errorReply "Forbidden: Directory traversal not allowed" http.StatusForbidden.

Definition forbiddenOutside : http.Response :=
  errorReply "Forbidden: Path outside serve directory" http.StatusForbidden.

Definition notFound : http.Response := errorReply "Not Found" http.StatusNotFound.

(** The path the handler resolves: what is left of the URL path after one
    leading separator is removed. *)
Definition requestPath (r : http.Request) : gostring :=
  strings.TrimPrefix (http.URL_Path r) "/".

(** The traversal check of line 80. *)
Definition traversalCheck (path : gostring) : bool :=
  strings.Contains path ".." || strings.HasPrefix path "/".

(** What is left of [ServeHTTP] once the path is resolved and contained
    (lines 102-113). *)
Definition dispatch `{Runtime} (fs : FileServer) (r : http.Request)
  (absPath path : gostring) : M unit :=
  stat <- syscall (SysStat absPath) (fun wd => Stat wd absPath) ;;
  if os.resultIsNotExist stat then
    http_Error "Not Found" http.StatusNotFound
  else
    match stat with
    | os.Err _ => panic
    | os.Ok info =>
        if os.IsDir info
        then serveDirectory fs r absPath path
        else serveFile fs r absPath
    end.

(** The serve root as line 96 resolves it. *)
Definition serveRootOf (wd : World) (fs : FileServer) : gostring :=
  match absolute wd (servePath fs) with
  | os.Ok p => p
  | os.Err _ => []
  end.

(** The reply of [serveFile]. *)
Definition fileReply (wd : World) (filePath : gostring) : http.Response :=
  match Open wd filePath with
  | os.Err err =>
      errorReply ("Error reading file: " ++ os.Error err)
        http.StatusInternalServerError
  | os.Ok file =>
      match os.fileStat file with
      | os.Err err =>
          errorReply ("Error reading file: " ++ os.Error err)
            http.StatusInternalServerError
      | os.Ok info =>
          http.mkResponse http.StatusOK
            [("Content-Type" : gostring, getMimeType (filepath.Base filePath));
             ("Content-Length" : gostring, fmt.Sprintf_d (os.Size info));
             ("Content-Disposition" : gostring,
              "attachment; filename=" ++ dq ++ filepath.Base filePath ++ dq)]
            (os.fileContents file)
      end
  end.

(** The listing that [serveDirectory] renders. *)
Definition listingOf (urlPath : gostring) (entries : list os.DirEntry)
  : DirectoryListing :=
  mkDirectoryListing urlPath (sort.Slice lessFile (listedFiles urlPath entries)).

(** The reply of [serveDirectory]. *)
Definition dirReply `{Runtime} (wd : World) (dirPath urlPath : gostring) : http.Response :=
  match ReadDir wd dirPath with
  | os.Err err =>
      errorReply ("Error reading directory: " ++ os.Error err)
        http.StatusInternalServerError
  | os.Ok entries =>
      http.mkResponse http.StatusOK
        [("Content-Type" : gostring, "text/html; charset=utf-8" : gostring)]
        (executeTemplate (listingOf urlPath entries))
  end.

(** The outcome of [ServeHTTP]. *)
Definition replyOf `{Runtime} (fs : FileServer) (wd : World) (r : http.Request) : Outcome :=
  if traversalCheck (requestPath r) then Replied forbiddenTraversal
  else
    match absolute wd (filepath.Join [servePath fs; requestPath r]) with
    | os.Err _ => Replied notFound
    | os.Ok absPath =>
        if negb (strings.HasPrefix absPath (serveRootOf wd fs))
        then Replied forbiddenOutside
        else
          match Stat wd absPath with
          | os.Err err => if os.IsNotExist err then Replied notFound else Aborted
          | os.Ok info =>
              if os.IsDir info
              then Replied (dirReply wd absPath (requestPath r))
              else Replied (fileReply wd absPath)
          end
    end.










(** [a] may stand before [b]: [b] is not less than [a]. *)
Definition notAfter {A : Type} (less : A -> A -> bool) (a b : A) : Prop :=
  less b a = false.

(** The order of the spec: directories before files, and names ascending
    (as Go compares strings) among directories and among files. *)
Definition listingOrder (a b : FileInfo) : Prop :=
  (IsDir a = true /\ IsDir b = false)
  \/ (IsDir a = IsDir b /\ gostring_ltb (Name b) (Name a) = false).

(** The entries whose metadata can be read. *)
Definition readable (entry : os.DirEntry) : bool :=
  match os.Info entry with
  | os.Ok _ => true
  | os.Err _ => false
  end.

(** The link of a child as the spec gives it, from the root of the site. *)
Definition navigableURL (urlPath name : gostring) (isDir : bool) : gostring :=
  "/" ++ (if isEmpty urlPath then name else urlPath ++ "/" ++ name)
  ++ (if isDir then "/" : gostring else []).

(** ** Sample data *)

(** Literals for lists of Go strings. *)
Definition strs (l : list string) : list gostring := map list_ascii_of_string l.

(** A Go string given by the values of its bytes. *)
Definition bytes (l : list Z) : gostring := map utf8.byte l.

(** Escapers that change nothing, for evaluating the model. *)
Definition plainRuntime : Runtime :=
  mkRuntime (fun s => s) (fun s => s) (fun s => s).

Definition noSuchFile : os.error := os.mkError true "no such file or directory".
Definition permissionDenied : os.error := os.mkError false "permission denied".
Definition notADirectory : os.error := os.mkError false "not a directory".

Definition epoch : time.Time := time.mkTime 2024 1 2 3 4.

Definition dirInfo (name : gostring) : os.FileInfo :=
  os.mkFileInfo name 4096 true epoch.
Definition regInfo (name : gostring) (size : Z) : os.FileInfo :=
  os.mkFileInfo name size false epoch.

(** A tree under [/srv/files]: a directory [docs] holding [b.txt] and
    [a.md], the file [index.html] (so that [index.html/x] is no path at
    all), and the directory [locked] that may not be searched; next to it,
    outside the tree, the file [/srv/files-secret/x]. *)
Definition sampleStat (name : gostring) : os.result os.FileInfo :=
  if gostring_eqb name "/srv/files" then os.Ok (dirInfo "files")
  else if gostring_eqb name "/srv/files/docs" then os.Ok (dirInfo "docs")
  else if gostring_eqb name "/srv/files/index.html"
       then os.Ok (regInfo "index.html" 5)
  else if gostring_eqb name "/srv/files/locked/x" then os.Err permissionDenied
  else if gostring_eqb name "/srv/files/index.html/x" then os.Err notADirectory
  else if gostring_eqb name "/srv/files-secret/x" then os.Ok (regInfo "x" 6)
  else os.Err noSuchFile.

Definition sampleOpen (name : gostring) : os.result os.File :=
  if gostring_eqb name "/srv/files/index.html"
  then os.Ok (os.mkFile (os.Ok (regInfo "index.html" 5)) "<p/>
")
  else if gostring_eqb name "/srv/files-secret/x"
  then os.Ok (os.mkFile (os.Ok (regInfo "x" 6)) "secret")
  else os.Err noSuchFile.

Definition sampleReadDir (name : gostring) : os.result (list os.DirEntry) :=
  if gostring_eqb name "/srv/files/docs"
  then os.Ok [ os.mkDirEntry "a.md" false (os.Ok (regInfo "a.md" 1536));
               os.mkDirEntry "b.txt" false (os.Ok (regInfo "b.txt" 12));
               os.mkDirEntry "gone" false (os.Err noSuchFile);
               os.mkDirEntry "sub" true (os.Ok (dirInfo "sub")) ]
  else os.Err noSuchFile.

Definition sampleWorld : World :=
  mkWorld (os.Ok ("/home/u" : gostring)) sampleStat sampleOpen sampleReadDir.

Definition sampleServer : FileServer := mkFileServer "/srv/files".

Definition GET (path : gostring) : http.Request :=
  http.mkRequest "GET" path [] [].

(** * Proofs *)

(** ** The library model on the test tables of Go's [path/filepath] *)

Example Clean_samples :
  map filepath.Clean
    (strs [ "abc"; "abc/def"; "a/b/c"; "."; ".."; "../.."; "../../abc"; "/abc";
            "/"; ""; "abc/"; "abc/def/"; "a/b/c/"; "./"; "../"; "../../";
            "/abc/"; "abc//def//ghi"; "abc//"; "abc/./def"; "/./abc/def";
            "abc/."; "abc/def/ghi/../jkl"; "abc/def/../ghi/../jkl";
            "abc/def/.."; "abc/def/../.."; "/abc/def/../.."; "abc/def/../../..";
            "/abc/def/../../.."; "abc/def/../../../ghi/jkl/../../../mno";
            "/../abc"; "abc/./../def"; "abc//./../def"; "abc/../../././../def";
            "//abc"; "///abc"; "//abc//" ])
  = strs [ "abc"; "abc/def"; "a/b/c"; "."; ".."; "../.."; "../../abc"; "/abc";
           "/"; "."; "abc"; "abc/def"; "a/b/c"; "."; ".."; "../..";
           "/abc"; "abc/def/ghi"; "abc"; "abc/def"; "/abc/def";
           "abc"; "abc/def/jkl"; "abc/jkl";
           "abc"; "."; "/"; "..";
           "/"; "../../mno";
           "/abc"; "def"; "def"; "../../def";
           "/abc"; "/abc"; "/abc" ].
Proof. vm_compute. reflexivity. Qed.

Example Join_samples :
  map filepath.Join
    (map strs [ []; [ "" ]; [ "a" ]; [ "a"; "b" ]; [ "a"; "" ]; [ ""; "b" ];
                [ "/"; "a" ]; [ "/"; "a/b" ]; [ "/"; "" ]; [ "/a"; "b" ];
                [ "a"; "/b" ]; [ "//"; "a" ]; [ "a/"; "b" ]; [ "a/"; "" ];
                [ ""; "" ]; [ "/srv/files"; "docs/a.md" ];
                [ "/srv/files"; "../files-secret/x" ] ])
  = strs [ ""; ""; "a"; "a/b"; "a"; "b";
           "/a"; "/a/b"; "/"; "/a/b";
           "a/b"; "/a"; "a/b"; "a";
           ""; "/srv/files/docs/a.md";
           "/srv/files-secret/x" ].
Proof. vm_compute. reflexivity. Qed.

Example Ext_Base_samples :
  map filepath.Ext
    (strs [ "path.go"; "path.pb.go"; "a.dir/b"; "a.dir/b.go"; "a.dir/";
            ".bashrc"; "x." ])
  = strs [ ".go"; ".go"; ""; ".go"; ""; ".bashrc"; "." ]
  /\ map filepath.Base
       (strs [ ""; "."; "/."; "/"; "////"; "x/"; "abc"; "abc/def"; "a/b/.x";
               "a/b/c."; "a/b/c.x" ])
     = strs [ "."; "."; "."; "/"; "/"; "x"; "abc"; "def"; ".x"; "c."; "c.x" ].
Proof. split; vm_compute; reflexivity. Qed.

(** [time.Format] pads a field after its sign. *)
Example Format_samples :
  map Format_2006_01_02_15_04
    [ time.mkTime 2024 1 2 3 4; time.mkTime 987 12 31 23 59;
      time.mkTime (-1) 1 1 0 0; time.mkTime 12345 6 7 8 9 ]
  = strs [ "2024-01-02 03:04"; "0987-12-31 23:59"; "-0001-01-01 00:00";
           "12345-06-07 08:09" ].
Proof. reflexivity. Qed.

(** ** Bytes and strings *)

Lemma byte_eqb_eq (a b : ascii) : byte_eqb a b = true <-> a = b.
Proof. apply Ascii.eqb_eq. Qed.

Lemma byte_eqb_refl (a : ascii) : byte_eqb a a = true.
Proof. apply Ascii.eqb_refl. Qed.

Lemma byte_eqb_neq (a b : ascii) : byte_eqb a b = false <-> a <> b.
Proof. apply Ascii.eqb_neq. Qed.

Lemma gostring_eqb_eq (a b : gostring) : gostring_eqb a b = true <-> a = b.
Proof.
  revert b; induction a as [|x a IH]; intros [|y b]; simpl;
    try (split; [discriminate | congruence]); try tauto.
  rewrite andb_true_iff, byte_eqb_eq, IH.
  split; [intros [-> ->]; reflexivity | intros E; inversion E; auto].
Qed.

Lemma gostring_eqb_refl (a : gostring) : gostring_eqb a a = true.
Proof. apply gostring_eqb_eq; reflexivity. Qed.

Lemma gostring_eqb_neq (a b : gostring) : gostring_eqb a b = false <-> a <> b.
Proof.
  destruct (gostring_eqb a b) eqn:E.
  - apply gostring_eqb_eq in E. split; [discriminate | contradiction].
  - split; [|reflexivity]. intros _ E'. apply gostring_eqb_eq in E'. congruence.
Qed.

Lemma HasPrefix_spec (s p : gostring) :
  strings.HasPrefix s p = true <-> exists t, s = p ++ t.
Proof.
  revert s; induction p as [|c p IH]; intros [|d s]; simpl.
  - split; [exists []; reflexivity | reflexivity].
  - split; [eexists; reflexivity | reflexivity].
  - split; [discriminate | intros [t E]; discriminate].
  - rewrite andb_true_iff, byte_eqb_eq, IH. split.
    + intros [-> [t ->]]. exists t; reflexivity.
    + intros [t E]. inversion E; subst. split; [reflexivity | eauto].
Qed.

Lemma HasPrefix_app (p t : gostring) : strings.HasPrefix (p ++ t) p = true.
Proof. apply HasPrefix_spec. eauto. Qed.

(** [strings.Contains s sub] holds exactly when [sub] occurs in [s]. *)
Lemma Contains_spec (s sub : gostring) :
  strings.Contains s sub = true <-> exists a b, s = a ++ sub ++ b.
Proof.
  induction s as [|c s IH]; cbn [strings.Contains].
  - rewrite orb_false_r, HasPrefix_spec. split.
    + intros [t E]. exists [], t. exact E.
    + intros [a [b E]]. destruct a; [eauto | discriminate].
  - rewrite orb_true_iff, HasPrefix_spec, IH. split.
    + intros [[t E] | [a [b E]]].
      * exists [], t. exact E.
      * exists (c :: a), b. simpl. congruence.
    + intros [[|x a] [b E]].
      * left. exists b. exact E.
      * right. inversion E; subst. eauto.
Qed.

(** ** [strings.Split] and [strings.Join] *)

Lemma Split_nonempty (s : gostring) (sep : ascii) : strings.Split s sep <> [].
Proof.
  destruct s as [|c s]; simpl; [discriminate|].
  destruct (byte_eqb c sep); [discriminate|].
  destruct (strings.Split s sep); discriminate.
Qed.

Lemma Split_cons_other (c : ascii) (s : gostring) (sep : ascii) :
  byte_eqb c sep = false ->
  exists h t, strings.Split s sep = h :: t
              /\ strings.Split (c :: s) sep = (c :: h) :: t.
Proof.
  intros E. simpl. rewrite E.
  destruct (strings.Split s sep) as [|h t] eqn:S.
  - exfalso. exact (Split_nonempty _ _ S).
  - eauto.
Qed.

(** Splitting distributes over a separator. *)
Lemma Split_app (a b : gostring) (sep : ascii) :
  strings.Split (a ++ sep :: b) sep = strings.Split a sep ++ strings.Split b sep.
Proof.
  induction a as [|c a IH]; simpl.
  - rewrite byte_eqb_refl. reflexivity.
  - destruct (byte_eqb c sep) eqn:E.
    + rewrite IH. reflexivity.
    + rewrite IH.
      destruct (strings.Split a sep) as [|h t] eqn:S.
      * exfalso. exact (Split_nonempty _ _ S).
      * reflexivity.
Qed.

(** No element of a split holds the separator. *)
Lemma Split_no_separator (s : gostring) (sep : ascii) :
  Forall (fun e => ~ In sep e) (strings.Split s sep).
Proof.
  induction s as [|c s IH]; simpl.
  - constructor; [intros [] | constructor].
  - destruct (byte_eqb c sep) eqn:E.
    + constructor; [intros [] | exact IH].
    + destruct (strings.Split s sep) as [|h t].
      * constructor; [|constructor]. intros [F|[]]. subst.
        rewrite byte_eqb_refl in E. discriminate.
      * inversion IH; subst. constructor; [|assumption].
        intros [F|F]; [|contradiction]. subst.
        rewrite byte_eqb_refl in E. discriminate.
Qed.

(** The first element of a split starts the string. *)
Lemma Split_head_prefix (s : gostring) (sep : ascii) (h : gostring)
  (t : list gostring) :
  strings.Split s sep = h :: t -> exists v, s = h ++ v.
Proof.
  revert h t; induction s as [|c s IH]; intros h t S; simpl in S.
  - inversion S; subst. exists []. reflexivity.
  - destruct (byte_eqb c sep).
    + inversion S; subst. eexists; reflexivity.
    + destruct (strings.Split s sep) as [|h' t'] eqn:S'.
      * exfalso. exact (Split_nonempty _ _ S').
      * inversion S; subst. destruct (IH _ _ eq_refl) as [v ->].
        exists v. reflexivity.
Qed.

(** Every element of a split is a substring. *)
Lemma Split_substring (s : gostring) (sep : ascii) (e : gostring) :
  In e (strings.Split s sep) -> exists a b, s = a ++ e ++ b.
Proof.
  revert e; induction s as [|c s IH]; intros e; simpl.
  - intros [<-|[]]. exists [], []. reflexivity.
  - destruct (byte_eqb c sep) eqn:E.
    + intros [<-|I].
      * exists [], (c :: s). reflexivity.
      * destruct (IH _ I) as [a [b ->]]. exists (c :: a), b. reflexivity.
    + destruct (strings.Split s sep) as [|h t] eqn:S.
      * exfalso. exact (Split_nonempty _ _ S).
      * intros [<-|I].
        -- destruct (Split_head_prefix _ _ _ _ S) as [v ->].
           exists [], v. reflexivity.
        -- destruct (IH e (or_intror I)) as [a [b ->]].
           exists (c :: a), b. reflexivity.
Qed.

Lemma Split_plain (e : gostring) (sep : ascii) :
  ~ In sep e -> strings.Split e sep = [e].
Proof.
  induction e as [|c e IH]; intros N; simpl; [reflexivity|].
  destruct (byte_eqb c sep) eqn:E.
  - apply byte_eqb_eq in E. subst. exfalso. apply N. left; reflexivity.
  - rewrite IH; [reflexivity|]. intros I. apply N. right; exact I.
Qed.

Lemma Join_cons (e : gostring) (l : list gostring) (sep : gostring) :
  l <> [] -> strings.Join (e :: l) sep = e ++ sep ++ strings.Join l sep.
Proof. destruct l; [congruence | reflexivity]. Qed.

Lemma Join_app (l1 l2 : list gostring) (sep : gostring) :
  l1 <> [] -> l2 <> [] ->
  strings.Join (l1 ++ l2) sep = strings.Join l1 sep ++ sep ++ strings.Join l2 sep.
Proof.
  intros N1 N2. induction l1 as [|e l1 IH]; [congruence|].
  destruct l1 as [|e' l1].
  - simpl app. rewrite Join_cons by assumption. reflexivity.
  - change ((e :: e' :: l1) ++ l2) with (e :: ((e' :: l1) ++ l2)).
    rewrite Join_cons by discriminate.
    rewrite IH by discriminate.
    rewrite (Join_cons e (e' :: l1)) by discriminate.
    rewrite <- !app_assoc. reflexivity.
Qed.

(** Joining elements free of the separator and splitting again gives the
    elements back. *)
Lemma Split_Join (l : list gostring) (sep : ascii) :
  l <> [] -> Forall (fun e => ~ In sep e) l ->
  strings.Split (strings.Join l [sep]) sep = l.
Proof.
  induction l as [|e l IH]; intros N F; [congruence|].
  inversion F as [|? ? Pe Pl]; subst.
  destruct l as [|e' l].
  - simpl. apply Split_plain. exact Pe.
  - rewrite Join_cons by discriminate.
    change (e ++ [sep] ++ strings.Join (e' :: l) [sep])
      with (e ++ sep :: strings.Join (e' :: l) [sep]).
    rewrite Split_app, Split_plain by exact Pe.
    rewrite IH by (discriminate || assumption). reflexivity.
Qed.

(** ** [filepath.Clean] *)

Lemma cleanStep_empty (rooted : bool) (out : list gostring) :
  filepath.cleanStep rooted out [] = out.
Proof. reflexivity. Qed.

Lemma cleanStep_dot (rooted : bool) (out : list gostring) (e : gostring) :
  filepath.isDot e = true -> filepath.cleanStep rooted out e = out.
Proof. intros D. unfold filepath.cleanStep. rewrite D. destruct e; reflexivity. Qed.

Lemma cleanStep_real (rooted : bool) (out : list gostring) (e : gostring) :
  kept e -> filepath.isDotDot e = false ->
  filepath.cleanStep rooted out e = e :: out.
Proof.
  intros [N D] DD. unfold filepath.cleanStep. rewrite D, DD.
  destruct e; [congruence | reflexivity].
Qed.

Lemma cleanStep_dotdot (rooted : bool) (out : list gostring) (e : gostring) :
  filepath.isDotDot e = true ->
  filepath.cleanStep rooted out e =
    match out with
    | top :: rest => if filepath.isDotDot top then e :: out else rest
    | [] => if rooted then [] else [e]
    end.
Proof.
  intros DD. apply gostring_eqb_eq in DD. subst. reflexivity.
Qed.

Lemma isDotDot_kept (e : gostring) : filepath.isDotDot e = true -> kept e.
Proof. intros DD. apply gostring_eqb_eq in DD. subst. split; [discriminate | reflexivity]. Qed.

(** The three shapes of a path element. *)
Lemma element_cases (e : gostring) :
  (e = [] \/ filepath.isDot e = true)
  \/ filepath.isDotDot e = true
  \/ (kept e /\ filepath.isDotDot e = false).
Proof.
  destruct e as [|c e]; [left; left; reflexivity|].
  destruct (filepath.isDot (c :: e)) eqn:D; [left; right; reflexivity|].
  destruct (filepath.isDotDot (c :: e)) eqn:DD; [right; left; reflexivity|].
  right; right. repeat split; [discriminate | exact D].
Qed.

Lemma fold_cleanStep_no_dotdot (rooted : bool) (es : list gostring) :
  Forall (fun e => filepath.isDotDot e = false) es ->
  forall out,
    fold_left (filepath.cleanStep rooted) es out = rev (filter keptb es) ++ out.
Proof.
  induction 1 as [|e es DD F IH]; intros out; [reflexivity|].
  simpl fold_left. simpl filter. unfold keptb at 1.
  destruct (element_cases e) as [[-> | D] | [DD' | [K _]]].
  - rewrite cleanStep_empty, IH. reflexivity.
  - rewrite cleanStep_dot, IH by exact D. rewrite D, andb_false_r. reflexivity.
  - congruence.
  - rewrite cleanStep_real, IH by assumption.
    destruct K as [N D]. rewrite D. destruct e; [congruence|].
    simpl. rewrite <- app_assoc. reflexivity.
Qed.

Lemma cleanStep_stackOK (rooted : bool) (out : list gostring) (e : gostring) :
  stackOK out -> ~ In Separator e -> stackOK (filepath.cleanStep rooted out e).
Proof.
  intros S N.
  destruct (element_cases e) as [[-> | D] | [DD | [K DD]]].
  - exact S.
  - rewrite cleanStep_dot by exact D. exact S.
  - rewrite cleanStep_dotdot by exact DD.
    destruct out as [|top rest].
    + destruct rooted; constructor; auto using isDotDot_kept.
    + destruct (filepath.isDotDot top).
      * constructor; auto using isDotDot_kept.
      * inversion S; assumption.
  - rewrite cleanStep_real by assumption. constructor; auto.
Qed.

Lemma fold_cleanStep_stackOK (rooted : bool) (es out : list gostring) :
  stackOK out -> Forall (fun e => ~ In Separator e) es ->
  stackOK (fold_left (filepath.cleanStep rooted) es out).
Proof.
  intros S F. revert out S.
  induction F as [|e es N F IH]; intros out S; [exact S|].
  simpl. apply IH. apply cleanStep_stackOK; assumption.
Qed.

Lemma cleanStep_rooted_noDotDot (out : list gostring) (e : gostring) :
  noDotDot out -> noDotDot (filepath.cleanStep true out e).
Proof.
  intros S.
  destruct (element_cases e) as [[-> | D] | [DD | [K DD]]].
  - exact S.
  - rewrite cleanStep_dot by exact D. exact S.
  - rewrite cleanStep_dotdot by exact DD.
    destruct out as [|top rest]; [constructor|].
    inversion S as [|? ? T R]; subst. rewrite T. exact R.
  - rewrite cleanStep_real by assumption. constructor; assumption.
Qed.

Lemma fold_cleanStep_rooted_noDotDot (es out : list gostring) :
  noDotDot out -> noDotDot (fold_left (filepath.cleanStep true) es out).
Proof.
  revert out; induction es as [|e es IH]; intros out S; [exact S|].
  simpl. apply IH, cleanStep_rooted_noDotDot, S.
Qed.

(** Cleaning a relative path first and processing the result afterwards is
    the same as processing its elements directly, on any stack [W]. *)
Lemma fold_cleanStep_normalize (rooted : bool) (X : list gostring) :
  Forall (fun e => ~ In Separator e) X ->
  forall st W, stackOK st ->
    fold_left (filepath.cleanStep rooted)
      (rev (fold_left (filepath.cleanStep false) X st)) W
    = fold_left (filepath.cleanStep rooted) X
        (fold_left (filepath.cleanStep rooted) (rev st) W).
Proof.
  induction 1 as [|e X N F IH]; intros st W S; [reflexivity|].
  simpl fold_left.
  destruct (element_cases e) as [[-> | D] | [DD | [K DD]]].
  - rewrite !cleanStep_empty. apply IH, S.
  - rewrite !cleanStep_dot by exact D. apply IH, S.
  - rewrite (cleanStep_dotdot false) by exact DD.
    destruct st as [|top rest].
    + rewrite IH by (constructor; [split; auto using isDotDot_kept | constructor]).
      reflexivity.
    + destruct (filepath.isDotDot top) eqn:T.
      * rewrite IH by (constructor; [split; auto using isDotDot_kept | exact S]).
        simpl rev. rewrite !fold_left_app. reflexivity.
      * inversion S as [|? ? [Kt Nt] R]; subst.
        rewrite IH by exact R. f_equal.
        simpl rev. rewrite fold_left_app. simpl fold_left.
        rewrite (cleanStep_real rooted _ top) by assumption.
        rewrite cleanStep_dotdot by exact DD. rewrite T. reflexivity.
  - rewrite (cleanStep_real false) by assumption.
    rewrite IH by (constructor; [split; assumption | exact S]).
    simpl rev. rewrite fold_left_app. reflexivity.
Qed.

Lemma stackOK_no_separator (st : list gostring) :
  stackOK st -> Forall (fun e => ~ In Separator e) (rev st).
Proof.
  intros S. apply Forall_rev. revert S. apply Forall_impl. intros e [_ N]; exact N.
Qed.

Lemma fold_Split_render_relative (rooted : bool) (st W : list gostring) :
  stackOK st ->
  fold_left (filepath.cleanStep rooted)
    (strings.Split (filepath.render false st) Separator) W
  = fold_left (filepath.cleanStep rooted) (rev st) W.
Proof.
  intros S. destruct st as [|e st]; [reflexivity|].
  unfold filepath.render.
  change ("/" : gostring) with [Separator].
  rewrite Split_Join; [reflexivity | | apply stackOK_no_separator, S].
  simpl. intros E. apply app_eq_nil in E. destruct E; discriminate.
Qed.

Lemma fold_Split_render_rooted (rooted : bool) (st W : list gostring) :
  stackOK st ->
  fold_left (filepath.cleanStep rooted)
    (strings.Split (filepath.render true st) Separator) W
  = fold_left (filepath.cleanStep rooted) (rev st) W.
Proof.
  intros S. unfold filepath.render.
  change (strings.Split (Separator :: ?x) Separator)
    with ([] :: strings.Split x Separator).
  destruct st as [|e st]; [reflexivity|].
  change ("/" : gostring) with [Separator].
  rewrite Split_Join; [reflexivity | | apply stackOK_no_separator, S].
  simpl. intros E. apply app_eq_nil in E. destruct E; discriminate.
Qed.

Lemma cleanElems_stackOK (rooted : bool) (p : gostring) :
  stackOK (filepath.cleanElems rooted p).
Proof.
  apply fold_cleanStep_stackOK; [constructor | apply Split_no_separator].
Qed.

Lemma Clean_nonempty (p : gostring) (H : p <> []) :
  filepath.Clean p = filepath.render (filepath.isRooted p)
                       (filepath.cleanElems (filepath.isRooted p) p).
Proof. destruct p; [congruence | reflexivity]. Qed.

Lemma render_nonempty (rooted : bool) (st : list gostring) :
  stackOK st -> filepath.render rooted st <> [].
Proof.
  intros S. destruct rooted; [discriminate|].
  destruct st as [|e st]; [discriminate|].
  unfold filepath.render. simpl rev. intros E.
  assert (Forall (fun e => e <> []) (rev st ++ [e])) as F.
  { apply Forall_app. split.
    - apply Forall_rev. inversion S; subst.
      eapply Forall_impl; [|eassumption]. intros ? [[? _] _]; assumption.
    - inversion S as [|? ? [[? _] _] ?]; subst. constructor; [assumption | constructor]. }
  destruct (rev st ++ [e]) as [|x l] eqn:L.
  - apply app_eq_nil in L. destruct L; discriminate.
  - inversion F; subst. destruct l as [|y l]; simpl in E.
    + congruence.
    + apply app_eq_nil in E. destruct E; congruence.
Qed.

Lemma isRooted_render (rooted : bool) (st : list gostring) :
  stackOK st -> filepath.isRooted (filepath.render rooted st) = rooted.
Proof.
  intros S. destruct rooted; [reflexivity|].
  destruct st as [|e st]; [reflexivity|].
  unfold filepath.render. simpl rev.
  assert (Forall (fun e => filepath.isRooted e = false) (rev st ++ [e])) as F.
  { apply stackOK_no_separator in S. simpl in S.
    eapply Forall_impl; [|exact S]. intros [|c a] N; [reflexivity|].
    simpl. apply byte_eqb_neq. intros ->. apply N. left; reflexivity. }
  assert (Forall (fun e => e <> []) (rev st ++ [e])) as G.
  { change (rev st ++ [e]) with (rev st ++ rev [e]). rewrite <- rev_app_distr.
    apply Forall_rev. simpl.
    eapply Forall_impl; [|exact S]. intros ? [[? _] _]; assumption. }
  destruct (rev st ++ [e]) as [|x l]; [reflexivity|].
  inversion F; subst. inversion G; subst.
  destruct x as [|c x]; [congruence|].
  destruct l; simpl in *; assumption.
Qed.

(** Whether a path is rooted is decided by what comes before its first
    separator. *)
Lemma isRooted_app (w x y : gostring) :
  filepath.isRooted (w ++ Separator :: x) = filepath.isRooted (w ++ Separator :: y).
Proof. destruct w; reflexivity. Qed.

Lemma cleanElems_app (rooted : bool) (w x : gostring) :
  filepath.cleanElems rooted (w ++ Separator :: x)
  = fold_left (filepath.cleanStep rooted) (strings.Split x Separator)
      (filepath.cleanElems rooted w).
Proof. unfold filepath.cleanElems. rewrite Split_app, fold_left_app. reflexivity. Qed.

(** [Clean (w/Clean x) = Clean (w/x)] for a relative [x]. *)
Lemma Clean_join_Clean (w x : gostring) :
  x <> [] -> filepath.isRooted x = false ->
  filepath.Clean (w ++ Separator :: filepath.Clean x)
  = filepath.Clean (w ++ Separator :: x).
Proof.
  intros N R.
  rewrite (Clean_nonempty (w ++ Separator :: filepath.Clean x)),
    (Clean_nonempty (w ++ Separator :: x)) by (destruct w; discriminate).
  rewrite (isRooted_app w _ x). f_equal.
  rewrite !cleanElems_app, (Clean_nonempty x N), R.
  rewrite fold_Split_render_relative by apply cleanElems_stackOK.
  unfold filepath.cleanElems at 1.
  rewrite fold_cleanStep_normalize; [reflexivity | apply Split_no_separator | constructor].
Qed.

(** Cleaning a rooted path twice changes nothing more. *)
Lemma Clean_rooted_idempotent (p : gostring) :
  filepath.isRooted p = true ->
  filepath.Clean (filepath.Clean p) = filepath.Clean p.
Proof.
  intros R. assert (p <> []) as N by (destruct p; [discriminate | discriminate]).
  rewrite (Clean_nonempty p N), R.
  set (st := filepath.cleanElems true p).
  assert (stackOK st) as S by apply cleanElems_stackOK.
  assert (noDotDot st) as D by (apply fold_cleanStep_rooted_noDotDot; constructor).
  rewrite Clean_nonempty by discriminate.
  change (filepath.isRooted (filepath.render true st)) with true.
  f_equal. unfold filepath.cleanElems.
  rewrite fold_Split_render_rooted by exact S.
  rewrite fold_cleanStep_no_dotdot by (apply Forall_rev, D).
  rewrite app_nil_r.
  assert (filter keptb (rev st) = rev st) as ->; [|apply rev_involutive].
  apply forallb_filter_id. apply forallb_forall. intros e I.
  apply in_rev in I. unfold stackOK in S. rewrite Forall_forall in S.
  destruct (S e I) as [[Ne De] _]. unfold keptb. rewrite De.
  destruct e; [congruence | reflexivity].
Qed.

(** ** Where the candidate path lies *)

Lemma HasPrefix_refl (s : gostring) : strings.HasPrefix s s = true.
Proof. apply HasPrefix_spec. exists []. symmetry; apply app_nil_r. Qed.

Lemma boundary_contained_refl (s : gostring) : boundary_contained s s = true.
Proof.
  unfold boundary_contained. rewrite HasPrefix_refl, skipn_all.
  apply orb_true_r.
Qed.

(** A rooted path with more elements pushed lies within the path without
    them. *)
Lemma render_contained (E W : list gostring) :
  boundary_contained (filepath.render true (E ++ W)) (filepath.render true W) = true.
Proof.
  unfold filepath.render. rewrite rev_app_distr.
  destruct (rev W) as [|w0 W'] eqn:RW.
  - simpl strings.Join at 2. unfold boundary_contained.
    replace (strings.HasPrefix _ [Separator]) with true; [reflexivity|].
    symmetry. apply HasPrefix_spec. eexists. reflexivity.
  - destruct (rev E) as [|e0 E'] eqn:RE.
    + rewrite app_nil_r. apply boundary_contained_refl.
    + rewrite Join_app by discriminate.
      set (root := Separator :: strings.Join (w0 :: W') "/").
      change (Separator :: strings.Join (w0 :: W') "/" ++ ?t) with (root ++ t).
      unfold boundary_contained.
      rewrite HasPrefix_app, skipn_app, skipn_all, Nat.sub_diag.
      simpl. rewrite orb_true_r. reflexivity.
Qed.

Lemma isRooted_app_nonempty (w x : gostring) :
  w <> [] -> filepath.isRooted (w ++ x) = filepath.isRooted w.
Proof. destruct w; [congruence | reflexivity]. Qed.

(** Under a rooted [base], a path without [..] elements only adds
    elements. *)
Lemma Clean_rooted_extend (base path : gostring) :
  filepath.isRooted base = true ->
  Forall (fun e => filepath.isDotDot e = false) (strings.Split path Separator) ->
  filepath.Clean (base ++ Separator :: path)
  = filepath.render true
      (rev (filter keptb (strings.Split path Separator))
       ++ filepath.cleanElems true base).
Proof.
  intros R F.
  assert (base <> []) as N by (destruct base; discriminate).
  rewrite Clean_nonempty by (destruct base; discriminate).
  rewrite isRooted_app_nonempty, R by exact N.
  rewrite cleanElems_app, fold_cleanStep_no_dotdot by exact F. reflexivity.
Qed.

Lemma Clean_rooted (base : gostring) :
  filepath.isRooted base = true ->
  filepath.Clean base = filepath.render true (filepath.cleanElems true base).
Proof.
  intros R. rewrite Clean_nonempty by (destruct base; discriminate).
  rewrite R. reflexivity.
Qed.

Lemma IsAbs_isRooted (p : gostring) : filepath.IsAbs p = filepath.isRooted p.
Proof.
  destruct p as [|c p]; [reflexivity|].
  unfold filepath.IsAbs. simpl. destruct p; apply andb_true_r.
Qed.

Lemma Join_pair (a b : gostring) :
  a <> [] -> filepath.Join [a; b] = filepath.Clean (a ++ Separator :: b).
Proof. destruct a; [congruence | reflexivity]. Qed.

(** A string without [..] in it has no [..] element. *)
Lemma no_dotdot_elements (path : gostring) :
  strings.Contains path ".." = false ->
  Forall (fun e => filepath.isDotDot e = false) (strings.Split path Separator).
Proof.
  intros C. apply Forall_forall. intros e I.
  destruct (filepath.isDotDot e) eqn:D; [|reflexivity].
  apply gostring_eqb_eq in D. subst.
  apply Split_substring in I.
  apply Contains_spec in I. congruence.
Qed.

Lemma isRooted_Clean (p : gostring) :
  p <> [] -> filepath.isRooted (filepath.Clean p) = filepath.isRooted p.
Proof.
  intros N. rewrite Clean_nonempty by exact N.
  apply isRooted_render, cleanElems_stackOK.
Qed.

Lemma Ok_injective {A : Type} (a b : A) : os.Ok a = os.Ok b -> a = b.
Proof. congruence. Qed.

(** The path lemma: joined to the serve path, a request path that passed
    the traversal check resolves within the resolved serve path. *)
Lemma candidate_within_root (wd : World) (sp path cand : gostring) :
  ServePathResolves wd sp ->
  strings.Contains path ".." = false ->
  strings.HasPrefix path "/" = false ->
  absolute wd (filepath.Join [sp; path]) = os.Ok cand ->
  exists root, absolute wd sp = os.Ok root
               /\ boundary_contained cand root = true.
Proof.
  intros WF C P A.
  pose proof (no_dotdot_elements _ C) as F.
  assert (filepath.isRooted path = false) as RP
    by (rewrite <- IsAbs_isRooted; exact P).
  unfold absolute in *.
  destruct sp as [|c sp'].
  - (* the serve path is empty *)
    destruct WF as [Abs|WF]; [discriminate Abs|].
    change (filepath.IsAbs []) with false.
    destruct path as [|d path'].
    + change (filepath.Join [[]; []]) with ([] : gostring) in A.
      change (filepath.IsAbs []) with false in A.
      destruct (Getwd wd) as [dir|err]; [|discriminate].
      apply Ok_injective in A; subst cand.
      eexists; split; [reflexivity | apply boundary_contained_refl].
    + set (path := d :: path') in *.
      assert (path <> []) as NP by discriminate.
      change (filepath.Join [[]; path]) with (filepath.Clean path) in A.
      rewrite IsAbs_isRooted, isRooted_Clean, RP in A by exact NP.
      destruct (Getwd wd) as [dir|err] eqn:G; [|discriminate].
      pose proof (WF _ G) as RD.
      assert (dir <> []) as ND by (destruct dir; discriminate).
      apply Ok_injective in A; subst cand.
      eexists; split; [reflexivity|].
      rewrite !Join_pair by exact ND.
      rewrite Clean_join_Clean by assumption.
      rewrite !Clean_rooted_extend by (assumption || (repeat constructor)).
      apply render_contained.
  - set (sp := c :: sp') in *.
    assert (sp <> []) as NS by discriminate.
    assert (sp ++ Separator :: path <> []) as NJ by (destruct sp; discriminate).
    rewrite Join_pair in A by exact NS.
    rewrite (IsAbs_isRooted sp).
    rewrite IsAbs_isRooted, isRooted_Clean, isRooted_app_nonempty in A
      by assumption.
    destruct (filepath.isRooted sp) eqn:RS.
    + (* a rooted serve path *)
      rewrite Clean_rooted_idempotent in A
        by (rewrite isRooted_app_nonempty; assumption).
      apply Ok_injective in A; subst cand.
      eexists; split; [reflexivity|].
      rewrite Clean_rooted_extend, (Clean_rooted sp) by assumption.
      apply render_contained.
    + (* a relative serve path: both are joined to the working directory *)
      destruct WF as [Abs|WF];
        [rewrite IsAbs_isRooted in Abs; fold sp in Abs; congruence|].
      assert (filepath.isRooted (sp ++ Separator :: path) = false) as RJ
        by (rewrite isRooted_app_nonempty; assumption).
      destruct (Getwd wd) as [dir|err] eqn:G; [|discriminate].
      pose proof (WF _ G) as RD.
      assert (dir <> []) as ND by (destruct dir; discriminate).
      apply Ok_injective in A; subst cand.
      eexists; split; [reflexivity|].
      rewrite !Join_pair by exact ND.
      rewrite Clean_join_Clean by assumption.
      replace (dir ++ Separator :: sp ++ Separator :: path)
        with ((dir ++ Separator :: sp) ++ Separator :: path)
        by (rewrite <- app_assoc; reflexivity).
      rewrite Clean_rooted_extend
        by ((rewrite isRooted_app_nonempty; assumption) || assumption).
      rewrite (Clean_rooted (dir ++ Separator :: sp))
        by (rewrite isRooted_app_nonempty; assumption).
      apply render_contained.
Qed.

(** ** Running the handler *)

Lemma filepath_Abs_run (path : gostring) (s : State) :
  filepath_Abs path s
  = (Val (absolute (world s) path),
     mkState (world s) (writer s)
       (trace s ++ if filepath.IsAbs path then [] else [SysGetwd])).
Proof.
  unfold filepath_Abs, absolute.
  destruct (filepath.IsAbs path).
  - rewrite app_nil_r. destruct s; reflexivity.
  - unfold bind, syscall, ret. destruct (Getwd (world s)); reflexivity.
Qed.

Lemma rangeEntries_run (urlPath : gostring) (entries : list os.DirEntry) :
  forall files s,
    rangeEntries urlPath entries files s
    = (Val (files ++ listedFiles urlPath entries),
       mkState (world s) (writer s) (trace s ++ lstats entries)).
Proof.
  induction entries as [|e entries IH]; intros files s.
  - simpl. rewrite !app_nil_r. destruct s; reflexivity.
  - simpl rangeEntries. unfold bind at 1. unfold syscall at 1.
    destruct (os.Info e) as [info|err] eqn:I; rewrite IH; simpl;
      rewrite I, <- ?app_assoc; reflexivity.
Qed.

Lemma http_Error_run (msg : gostring) (code : Z) (wd : World) (t : list Syscall) :
  exists w, http_Error msg code (mkState wd http.newResponseWriter t)
            = (Val tt, mkState wd w t)
            /\ http.finish w = errorReply msg code.
Proof. eexists. split; reflexivity. Qed.

Section Resolution.
Context `{Runtime}.

Lemma serve_traversal (fs : FileServer) (wd : World) (r : http.Request) :
  traversalCheck (requestPath r) = true ->
  ServeHTTP fs r (mkState wd http.newResponseWriter [])
  = http_Error "Forbidden: Directory traversal not allowed" http.StatusForbidden
      (mkState wd http.newResponseWriter []).
Proof.
  unfold traversalCheck, requestPath, ServeHTTP. intros ->. reflexivity.
Qed.

(** [ServeHTTP] past the traversal check, by the outcome of resolution. *)
Lemma ServeHTTP_resolve (fs : FileServer) (r : http.Request) (s : State) :
  traversalCheck (requestPath r) = false ->
  exists s',
    world s' = world s /\ writer s' = writer s /\
    ServeHTTP fs r s =
      match absolute (world s) (filepath.Join [servePath fs; requestPath r]) with
      | os.Err _ => http_Error "Not Found" http.StatusNotFound s'
      | os.Ok absPath =>
          if negb (strings.HasPrefix absPath (serveRootOf (world s) fs))
          then http_Error "Forbidden: Path outside serve directory"
                 http.StatusForbidden s'
          else dispatch fs r absPath (requestPath r) s'
      end.
Proof.
  unfold traversalCheck, requestPath, ServeHTTP. intros ->.
  unfold bind at 1. rewrite filepath_Abs_run.
  set (full := filepath.Join _) in *.
  destruct (absolute (world s) full) as [absPath|err] eqn:A.
  - unfold bind at 1. rewrite filepath_Abs_run. cbn [world writer trace].
    eexists (mkState (world s) (writer s) _).
    split; [reflexivity|]. split; [reflexivity|].
    unfold serveRootOf, dispatch.
    destruct (negb _); reflexivity.
  - eexists (mkState (world s) (writer s) _).
    split; [reflexivity|]. split; reflexivity.
Qed.

End Resolution.

(** ** The handler as a function of the request and the world *)

Section Replies.
Context `{Runtime}.

Lemma serveFile_reply (fs : FileServer) (r : http.Request) (filePath : gostring)
  (wd : World) (t : list Syscall) :
  exists s', serveFile fs r filePath (mkState wd http.newResponseWriter t)
             = (Val tt, s')
             /\ http.finish (writer s') = fileReply wd filePath.
Proof.
  unfold serveFile, fileReply, bind, syscall. cbn [world writer trace].
  destruct (Open wd filePath) as [file|err].
  - destruct (os.fileStat file) as [info|err];
      eexists; split; reflexivity.
  - eexists; split; reflexivity.
Qed.

Lemma serveDirectory_reply (fs : FileServer) (r : http.Request)
  (dirPath urlPath : gostring) (wd : World) (t : list Syscall) :
  exists s', serveDirectory fs r dirPath urlPath
               (mkState wd http.newResponseWriter t) = (Val tt, s')
             /\ http.finish (writer s') = dirReply wd dirPath urlPath.
Proof.
  unfold serveDirectory, dirReply.
  unfold bind at 1. unfold syscall at 1. cbn [world writer trace].
  destruct (ReadDir wd dirPath) as [entries|err].
  - unfold bind at 1. rewrite rangeEntries_run.
    unfold generateDirectoryHTML.
    eexists; split; reflexivity.
  - eexists; split; reflexivity.
Qed.

(** [ServeHTTP] computes [replyOf]. *)
Lemma serve_replyOf (fs : FileServer) (wd : World) (r : http.Request) :
  serve fs wd r = replyOf fs wd r.
Proof.
  unfold serve, replyOf.
  destruct (traversalCheck (requestPath r)) eqn:T.
  - rewrite serve_traversal by exact T. reflexivity.
  - destruct (ServeHTTP_resolve fs r (mkState wd http.newResponseWriter []) T)
      as (s' & W & Wr & ->).
    cbn [world writer] in *. destruct s' as [wd' w' t']. cbn in W, Wr. subst.
    destruct (absolute wd _) as [absPath|err]; [|reflexivity].
    destruct (negb _); [reflexivity|].
    unfold dispatch, bind at 1, syscall at 1. cbn [world writer trace].
    destruct (Stat wd absPath) as [info|err]; cbn [os.resultIsNotExist].
    + destruct (os.IsDir info).
      * destruct (serveDirectory_reply fs r absPath (requestPath r) wd (t' ++ [SysStat absPath]))
          as (s' & -> & ->). reflexivity.
      * destruct (serveFile_reply fs r absPath wd (t' ++ [SysStat absPath]))
          as (s' & -> & ->). reflexivity.
    + destruct (os.IsNotExist err); reflexivity.
Qed.

End Replies.

(** ** Path resolution *)

(** A [..] in the URL path is still there once a leading separator is
    removed. *)
Lemma traversalCheck_dotdot (r : http.Request) :
  (exists a b, http.URL_Path r = a ++ ".." ++ b) ->
  strings.Contains (requestPath r) ".." = true.
Proof.
  intros (a & b & E). unfold requestPath, strings.TrimPrefix. rewrite E.
  destruct (strings.HasPrefix (a ++ ".." ++ b) "/") eqn:P.
  - apply HasPrefix_spec in P. destruct P as [t P].
    destruct a as [|c a]; [discriminate|].
    apply Contains_spec. exists a, b. reflexivity.
  - apply Contains_spec. eauto.
Qed.

Section PathClaims.
Context `{Runtime}.

(** C3: a request whose path contains [..] anywhere, or whose path still
    begins with a separator after one leading separator is removed, is
    answered 403 Forbidden whatever the filesystem holds: the handler replies
    before it has made a single call to the operating system. *)
Theorem traversal_is_forbidden (fs : FileServer) (wd : World) (r : http.Request) :
  (exists a b, http.URL_Path r = a ++ ".." ++ b)
  \/ (exists t, requestPath r = Separator :: t) ->
  serve fs wd r = Replied forbiddenTraversal
  /\ http.Status forbiddenTraversal = 403
  /\ trace (snd (ServeHTTP fs r (mkState wd http.newResponseWriter []))) = [].
Proof.
  intros Hyp.
  assert (traversalCheck (requestPath r) = true) as T.
  { unfold traversalCheck. destruct Hyp as [D | [t E]].
    - rewrite traversalCheck_dotdot by exact D. reflexivity.
    - rewrite E. apply orb_true_iff. right.
      apply HasPrefix_spec. exists t. reflexivity. }
  unfold serve. rewrite serve_traversal by exact T.
  repeat split.
Qed.

(** C1: whenever the candidate path a request resolves to is not
    boundary-contained in the resolved serve root, the reply is 403
    Forbidden.  Such a candidate only arises from a request path with [..] in
    it -- [/srv/files-secret/x] under the root [/srv/files] from
    [GET /../files-secret/x] -- and the check of line 80 answers that one
    before the comparison of line 97 is reached. *)
Theorem uncontained_candidate_is_forbidden (fs : FileServer) (wd : World)
  (r : http.Request) (cand root : gostring) :
  ServePathResolves wd (servePath fs) ->
  absolute wd (filepath.Join [servePath fs; requestPath r]) = os.Ok cand ->
  absolute wd (servePath fs) = os.Ok root ->
  boundary_contained cand root = false ->
  serve fs wd r = Replied forbiddenTraversal
  /\ http.Status forbiddenTraversal = 403.
Proof.
  intros WF A R B. split; [|reflexivity].
  destruct (traversalCheck (requestPath r)) eqn:T.
  - unfold serve. rewrite serve_traversal by exact T. reflexivity.
  - unfold traversalCheck in T. apply orb_false_iff in T. destruct T as [C P].
    destruct (candidate_within_root wd _ _ _ WF C P A) as (root' & R' & B').
    congruence.
Qed.

(** C10: a request path that passes the traversal check resolves, joined
    to the serve path and made absolute, to a path that has the resolved serve
    root as a prefix; so the handler never gives the reply of the
    outside-the-serve-directory branch. *)
Theorem outside_branch_unreachable (fs : FileServer) (wd : World)
  (r : http.Request) :
  ServePathResolves wd (servePath fs) ->
  (traversalCheck (requestPath r) = false ->
   forall absPath,
     absolute wd (filepath.Join [servePath fs; requestPath r]) = os.Ok absPath ->
     strings.HasPrefix absPath (serveRootOf wd fs) = true)
  /\ serve fs wd r <> Replied forbiddenOutside.
Proof.
  intros WF.
  assert (traversalCheck (requestPath r) = false ->
          forall absPath,
            absolute wd (filepath.Join [servePath fs; requestPath r]) = os.Ok absPath ->
            strings.HasPrefix absPath (serveRootOf wd fs) = true) as Contained.
  { intros T absPath A.
    unfold traversalCheck in T. apply orb_false_iff in T. destruct T as [C P].
    destruct (candidate_within_root wd _ _ _ WF C P A) as (root & R & B).
    unfold serveRootOf. rewrite R.
    unfold boundary_contained in B. apply andb_true_iff in B. apply B. }
  split; [exact Contained|].
  rewrite serve_replyOf. unfold replyOf.
  destruct (traversalCheck (requestPath r)) eqn:T; [discriminate|].
  destruct (absolute wd _) as [absPath|err] eqn:A; [|discriminate].
  rewrite (Contained eq_refl absPath eq_refl). cbn [negb].
  destruct (Stat wd absPath) as [info|err].
  - destruct (os.IsDir info); intros E; apply (f_equal
      (fun o => match o with Replied resp => http.Status resp | Aborted => 0 end)) in E.
    + unfold dirReply in E. destruct (ReadDir wd absPath); discriminate.
    + unfold fileReply in E. destruct (Open wd absPath) as [file|];
        [destruct (os.fileStat file)|]; discriminate.
  - destruct (os.IsNotExist err); discriminate.
Qed.

(** C2, what the code does: when [os.Stat] fails on the resolved path with
    an error other than non-existence, [info] is nil and [info.IsDir()]
    panics; the handler sends no reply at all. *)
Theorem stat_failure_panics (fs : FileServer) (wd : World) (r : http.Request)
  (absPath : gostring) (err : os.error) :
  traversalCheck (requestPath r) = false ->
  absolute wd (filepath.Join [servePath fs; requestPath r]) = os.Ok absPath ->
  strings.HasPrefix absPath (serveRootOf wd fs) = true ->
  Stat wd absPath = os.Err err ->
  os.IsNotExist err = false ->
  serve fs wd r = Aborted.
Proof.
  intros T A P S N. rewrite serve_replyOf. unfold replyOf.
  rewrite T, A, P, S, N. reflexivity.
Qed.

End PathClaims.

(** On its own the comparison of line 97 is a plain prefix test, which holds
    of [/srv/files-secret/x] and [/srv/files] where boundary-aware containment
    does not; by the theorem above no request brings it such a pair. *)
Example line_97_is_a_prefix_test :
  strings.HasPrefix "/srv/files-secret/x" "/srv/files" = true
  /\ boundary_contained "/srv/files-secret/x" "/srv/files" = false.
Proof. split; reflexivity. Qed.

Lemma uncontained_candidate_is_forbidden_witness :
  serve (H := plainRuntime) sampleServer sampleWorld (GET "/../files-secret/x")
  = Replied forbiddenTraversal
  /\ http.Status forbiddenTraversal = 403.
Proof.
  apply (uncontained_candidate_is_forbidden (H := plainRuntime) sampleServer
           sampleWorld (GET "/../files-secret/x")
           "/srv/files-secret/x" "/srv/files").
  - left. reflexivity.
  - reflexivity.
  - reflexivity.
  - reflexivity.
Defined.

Lemma traversal_is_forbidden_witness :
  serve (H := plainRuntime) sampleServer sampleWorld (GET "/docs/../index.html")
  = Replied forbiddenTraversal
  /\ http.Status forbiddenTraversal = 403
  /\ trace (snd (ServeHTTP (H := plainRuntime) sampleServer
                   (GET "/docs/../index.html")
                   (mkState sampleWorld http.newResponseWriter []))) = [].
Proof.
  apply (traversal_is_forbidden (H := plainRuntime)).
  left. exists ("/docs/" : gostring), ("/index.html" : gostring). reflexivity.
Defined.

Lemma outside_branch_unreachable_witness :
  (traversalCheck (requestPath (GET "/docs")) = false ->
   forall absPath,
     absolute sampleWorld
       (filepath.Join [servePath sampleServer; requestPath (GET "/docs")])
     = os.Ok absPath ->
     strings.HasPrefix absPath (serveRootOf sampleWorld sampleServer) = true)
  /\ serve (H := plainRuntime) sampleServer sampleWorld (GET "/docs")
     <> Replied forbiddenOutside.
Proof.
  apply (outside_branch_unreachable (H := plainRuntime)).
  left. reflexivity.
Defined.

Lemma stat_failure_panics_witness :
  serve (H := plainRuntime) sampleServer sampleWorld (GET "/index.html/x")
  = Aborted.
Proof.
  apply (stat_failure_panics (H := plainRuntime) sampleServer sampleWorld
           (GET "/index.html/x") "/srv/files/index.html/x" notADirectory);
    reflexivity.
Defined.

(** The same for a path under a directory that may not be searched. *)
Example stat_permission_denied_panics :
  serve (H := plainRuntime) sampleServer sampleWorld (GET "/locked/x") = Aborted.
Proof. vm_compute. reflexivity. Qed.

(** ** [getMimeType] *)

(** *** Bytes and runes *)
























(** Sample values of the case table: Latin-1, a range of alternating
    capitals and small letters, the two letters that lower into ASCII, the
    Greek, Cyrillic and Deseret capitals, the three forms of the digraph DZ
    with caron, the capital sharp S, and letters without case. *)
Example ToLower_samples :
  map unicode.ToLower
    [0x41; 0x5A; 0x5B; 0xC9; 0xD7; 0x100; 0x101; 0x130; 0x212A; 0x212B;
     0x3A3; 0x416; 0x10400; 0x1C4; 0x1C5; 0x1C6; 0x1E9E; 0xDF; 0x4E2D;
     0xFFFD]
  = [0x61; 0x7A; 0x5B; 0xE9; 0xD7; 0x101; 0x101; 0x69; 0x6B; 0xE5;
     0x3C3; 0x436; 0x10428; 0x1C6; 0x1C6; 0x1C6; 0xDF; 0xDF; 0x4E2D;
     0xFFFD].
Proof. reflexivity. Qed.

(** Decoding and encoding: one rune of each width, and the sequences that
    are no UTF-8 -- a continuation byte alone, an overlong form, a
    surrogate, a sequence cut short -- byte by byte. *)
Example runes_samples :
  utf8.runes ("a" ++ bytes [0xC3; 0xA9; 0xE2; 0x84; 0xAA; 0xF0; 0x90; 0x90; 0x80])
  = [0x61; 0xE9; 0x212A; 0x10400]
  /\ utf8.runes (bytes [0x80; 0xC0; 0xAF; 0xED; 0xA0; 0x80; 0xE2; 0x84])
     = [0xFFFD; 0xFFFD; 0xFFFD; 0xFFFD; 0xFFFD; 0xFFFD; 0xFFFD; 0xFFFD]
  /\ flat_map utf8.AppendRune [0x61; 0xE9; 0x212A; 0x10400; 0xD800; -1]
     = "a" ++ bytes [0xC3; 0xA9; 0xE2; 0x84; 0xAA; 0xF0; 0x90; 0x90; 0x80;
                     0xEF; 0xBF; 0xBD; 0xEF; 0xBF; 0xBD].
Proof. repeat split; vm_compute; reflexivity. Qed.

(** *** The table *)





(** The table row by row, upper case included. *)
Example getMimeType_samples :
  map getMimeType
    (strs [ "index.html"; "a.HTM"; "s.css"; "app.js"; "d.json"; "p.PNG";
            "photo.JPG"; "photo.jpeg"; "x.gif"; "logo.svg"; "doc.pdf";
            "notes.txt"; "README.md"; "archive.tar.gz"; "Makefile"; ".txt" ])
  = strs [ "text/html"; "text/html"; "text/css"; "application/javascript";
           "application/json"; "image/png"; "image/jpeg"; "image/jpeg";
           "image/gif"; "image/svg+xml"; "application/pdf"; "text/plain";
           "text/markdown"; "application/octet-stream";
           "application/octet-stream"; "text/plain" ].
Proof. reflexivity. Qed.

(** Extensions beyond ASCII: [.G] followed by the dotted capital I and [F]
    lowers to [.gif]; [.M] followed by the Kelvin sign and [D] lowers to
    [.mkd], [.] followed by e acute to itself, and a byte that is no UTF-8
    becomes U+FFFD: none of them is in the table. *)
Example getMimeType_beyond_ASCII :
  map getMimeType
    [ "pic.G" ++ bytes [0xC4; 0xB0] ++ "F";
      "doc.M" ++ bytes [0xE2; 0x84; 0xAA] ++ "D";
      "x." ++ bytes [0xC3; 0xA9];
      "x.GIF" ++ bytes [0xFF] ]
  = strs [ "image/gif"; "application/octet-stream"; "application/octet-stream";
           "application/octet-stream" ]
  /\ strings.ToLower (".M" ++ bytes [0xE2; 0x84; 0xAA] ++ "D") = ".mkd"
  /\ strings.ToLower (".GIF" ++ bytes [0xFF])
     = ".gif" ++ bytes [0xEF; 0xBF; 0xBD].
Proof. repeat split; vm_compute; reflexivity. Qed.


(** ** [sort.Slice] *)

Section SortSlice.
Context {A : Type} (less : A -> A -> bool).

Hypothesis less_asym : forall a b, less a b = true -> less b a = false.
Hypothesis notAfter_trans :
  forall a b c, notAfter less a b -> notAfter less b c -> notAfter less a c.

Lemma insert_Permutation (x : A) (l : list A) :
  Permutation (sort.insert less x l) (x :: l).
Proof.
  induction l as [|y t IH]; simpl; [reflexivity|].
  destruct (less x y); [reflexivity|].
  rewrite IH. apply perm_swap.
Qed.

Lemma Slice_Permutation (l : list A) : Permutation (sort.Slice less l) l.
Proof.
  induction l as [|x l IH]; simpl; [reflexivity|].
  rewrite insert_Permutation. constructor. exact IH.
Qed.

Lemma insert_sorted (x : A) (l : list A) :
  StronglySorted (notAfter less) l -> StronglySorted (notAfter less) (sort.insert less x l).
Proof.
  induction 1 as [|y t S IH F]; simpl.
  - constructor; constructor.
  - destruct (less x y) eqn:L.
    + constructor; [constructor; assumption|].
      assert (notAfter less x y) as XY by (apply less_asym, L).
      constructor; [exact XY|].
      eapply Forall_impl; [|exact F]. intros z YZ.
      eapply notAfter_trans; eassumption.
    + constructor; [exact IH|].
      rewrite Forall_forall. intros z I.
      apply (Permutation_in _ (insert_Permutation x t)) in I.
      destruct I as [<-|I]; [exact L|].
      rewrite Forall_forall in F. apply F, I.
Qed.

Lemma Slice_sorted (l : list A) : StronglySorted (notAfter less) (sort.Slice less l).
Proof.
  induction l as [|x l IH]; simpl; [constructor | apply insert_sorted, IH].
Qed.

End SortSlice.

(** Two sorted arrangements of the same elements are the same list, when
    no two distinct elements may each stand before the other: on such
    elements every sorting algorithm computes [sort.Slice]. *)
Lemma sorted_permutation_unique {A : Type} (R : A -> A -> Prop) (l : list A) :
  forall l',
    (forall a b, In a l -> In b l -> R a b -> R b a -> a = b) ->
    StronglySorted R l -> StronglySorted R l' -> Permutation l l' -> l = l'.
Proof.
  induction l as [|a l IH]; intros l' Anti S S' P.
  - apply Permutation_nil in P. congruence.
  - destruct l' as [|b l'].
    + symmetry in P. apply Permutation_nil in P. discriminate.
    + inversion S as [|? ? Sl Fa]; subst. inversion S' as [|? ? Sl' Fb]; subst.
      rewrite Forall_forall in Fa, Fb.
      assert (a = b) as ->.
      { assert (In a (b :: l')) as Ia
          by (eapply Permutation_in; [exact P | left; reflexivity]).
        assert (In b (a :: l)) as Ib
          by (eapply Permutation_in; [symmetry; exact P | left; reflexivity]).
        destruct Ia as [E|Ia]; [congruence|].
        destruct Ib as [E|Ib]; [congruence|].
        apply Anti; [left; reflexivity | right; exact Ib | apply Fa, Ib | apply Fb, Ia]. }
      f_equal. apply IH.
      * intros x y Ix Iy. apply Anti; right; assumption.
      * exact Sl.
      * exact Sl'.
      * eapply Permutation_cons_inv. exact P.
Qed.

(** ** The order of a listing *)

Lemma gostring_ltb_irrefl (a : gostring) : gostring_ltb a a = false.
Proof.
  induction a as [|x a IH]; simpl; [reflexivity|].
  rewrite Nat.ltb_irrefl. exact IH.
Qed.

Lemma gostring_ltb_asym (a b : gostring) :
  gostring_ltb a b = true -> gostring_ltb b a = false.
Proof.
  revert b; induction a as [|x a IH]; intros [|y b]; simpl; try congruence.
  destruct (nat_of_ascii x <? nat_of_ascii y)%nat eqn:XY.
  - intros _. apply Nat.ltb_lt in XY.
    destruct (nat_of_ascii y <? nat_of_ascii x)%nat eqn:YX; [|reflexivity].
    apply Nat.ltb_lt in YX. lia.
  - destruct (nat_of_ascii y <? nat_of_ascii x)%nat; [congruence | apply IH].
Qed.

(** Neither below the other: the same string. *)
Lemma gostring_ltb_total (a b : gostring) :
  gostring_ltb a b = false -> gostring_ltb b a = false -> a = b.
Proof.
  revert b; induction a as [|x a IH]; intros [|y b]; simpl; try congruence.
  destruct (nat_of_ascii x <? nat_of_ascii y)%nat eqn:XY; [congruence|].
  destruct (nat_of_ascii y <? nat_of_ascii x)%nat eqn:YX; [congruence|].
  intros L1 L2. apply Nat.ltb_ge in XY, YX.
  assert (nat_of_ascii x = nat_of_ascii y) as E by lia.
  apply (f_equal ascii_of_nat) in E. rewrite !ascii_nat_embedding in E.
  subst. f_equal. apply IH; assumption.
Qed.

Lemma gostring_le_trans (a b c : gostring) :
  gostring_ltb b a = false -> gostring_ltb c b = false ->
  gostring_ltb c a = false.
Proof.
  revert b c; induction a as [|x a IH]; intros [|y b] [|z c]; simpl;
    try congruence.
  destruct (nat_of_ascii y <? nat_of_ascii x)%nat eqn:YX; [congruence|].
  destruct (nat_of_ascii x <? nat_of_ascii y)%nat eqn:XY.
  - intros _.
    destruct (nat_of_ascii z <? nat_of_ascii y)%nat eqn:ZY; [congruence|].
    apply Nat.ltb_lt in XY. apply Nat.ltb_ge in ZY.
    destruct (nat_of_ascii z <? nat_of_ascii x)%nat eqn:ZX;
      [apply Nat.ltb_lt in ZX; lia|].
    destruct (nat_of_ascii x <? nat_of_ascii z)%nat eqn:XZ; [reflexivity|].
    apply Nat.ltb_ge in XZ. lia.
  - intros L1.
    destruct (nat_of_ascii z <? nat_of_ascii y)%nat eqn:ZY; [congruence|].
    apply Nat.ltb_ge in YX, XY, ZY.
    assert (nat_of_ascii x = nat_of_ascii y) as E by lia. rewrite E.
    rewrite (proj2 (Nat.ltb_ge _ _) ZY).
    destruct (nat_of_ascii y <? nat_of_ascii z)%nat; [reflexivity|].
    apply IH. exact L1.
Qed.

Lemma notAfter_listingOrder (a b : FileInfo) :
  notAfter lessFile a b <-> listingOrder a b.
Proof.
  unfold notAfter, lessFile, listingOrder.
  destruct (IsDir a), (IsDir b); simpl; intuition congruence.
Qed.

Lemma lessFile_asym (a b : FileInfo) :
  lessFile a b = true -> lessFile b a = false.
Proof.
  unfold lessFile. destruct (IsDir a), (IsDir b); simpl; try congruence;
    apply gostring_ltb_asym.
Qed.

Lemma lessFile_notAfter_trans (a b c : FileInfo) :
  notAfter lessFile a b -> notAfter lessFile b c -> notAfter lessFile a c.
Proof.
  unfold notAfter, lessFile.
  destruct (IsDir a), (IsDir b), (IsDir c); simpl; try congruence;
    apply gostring_le_trans.
Qed.

Lemma StronglySorted_impl {A : Type} (R Q : A -> A -> Prop) (l : list A) :
  (forall a b, R a b -> Q a b) -> StronglySorted R l -> StronglySorted Q l.
Proof.
  intros I. induction 1 as [|a l S IH F]; constructor; [exact IH|].
  eapply Forall_impl; [|exact F]. intros b. apply I.
Qed.

Lemma NoDup_map_In_eq {A B : Type} (f : A -> B) (l : list A) (a b : A) :
  NoDup (map f l) -> In a l -> In b l -> f a = f b -> a = b.
Proof.
  induction l as [|x l IH]; simpl; intros N Ia Ib E; [contradiction|].
  inversion N as [|? ? Nx Nl]; subst.
  destruct Ia as [->|Ia], Ib as [->|Ib]; auto.
  - exfalso. apply Nx. rewrite E. apply in_map, Ib.
  - exfalso. apply Nx. rewrite <- E. apply in_map, Ia.
Qed.

Lemma listingOrder_antisym (a b : FileInfo) :
  listingOrder a b -> listingOrder b a -> Name a = Name b.
Proof.
  unfold listingOrder. intros [[Da Db]|[E1 L1]] [[Db' Da']|[E2 L2]]; try congruence.
  apply gostring_ltb_total; assumption.
Qed.

(** The names in a directory are pairwise distinct, so the order of a
    listing leaves no choice: whatever algorithm [sort.Slice] runs, its
    result is the list computed here. *)
Lemma sorted_listing_unique (files sorted : list FileInfo) :
  NoDup (map Name files) -> Permutation files sorted ->
  StronglySorted listingOrder sorted ->
  sorted = sort.Slice lessFile files.
Proof.
  intros N P S. apply (sorted_permutation_unique listingOrder).
  - intros a b Ia Ib Rab Rba.
    apply (NoDup_map_In_eq Name sorted); try assumption.
    + eapply Permutation_NoDup; [apply Permutation_map; exact P | exact N].
    + apply listingOrder_antisym; assumption.
  - exact S.
  - eapply StronglySorted_impl; [intros a b; apply notAfter_listingOrder|].
    apply Slice_sorted; [exact lessFile_asym | exact lessFile_notAfter_trans].
  - rewrite <- P. symmetry. apply Slice_Permutation.
Qed.

Lemma entryFileInfo_URL (urlPath : gostring) (entry : os.DirEntry)
  (info : os.FileInfo) :
  URL (entryFileInfo urlPath entry info)
  = navigableURL urlPath (os.entryName entry) (os.entryIsDir entry).
Proof.
  unfold entryFileInfo, navigableURL. cbn [URL].
  destruct (isEmpty urlPath), (os.entryIsDir entry); cbn [negb];
    rewrite <- ?app_assoc, ?app_nil_r; reflexivity.
Qed.

Lemma listedFiles_In (urlPath : gostring) (entries : list os.DirEntry)
  (f : FileInfo) :
  In f (listedFiles urlPath entries) <->
  exists entry info, In entry entries /\ os.Info entry = os.Ok info
                     /\ f = entryFileInfo urlPath entry info.
Proof.
  unfold listedFiles. rewrite in_flat_map. split.
  - intros (entry & I & F). destruct (os.Info entry) as [info|] eqn:E.
    + destruct F as [<-|[]]. eauto.
    + destruct F.
  - intros (entry & info & I & E & ->). exists entry. split; [exact I|].
    rewrite E. left; reflexivity.
Qed.

Lemma listedFiles_names (urlPath : gostring) (entries : list os.DirEntry) :
  map Name (listedFiles urlPath entries)
  = map os.entryName (filter readable entries).
Proof.
  induction entries as [|e entries IH]; [reflexivity|].
  unfold listedFiles, readable in *. simpl.
  destruct (os.Info e); simpl; rewrite IH; reflexivity.
Qed.

Section Listing.
Context `{Runtime}.

Lemma serveDirectory_listing (fs : FileServer) (r : http.Request)
  (dirPath urlPath : gostring) (wd : World) (t : list Syscall)
  (entries : list os.DirEntry) :
  ReadDir wd dirPath = os.Ok entries ->
  exists s',
    serveDirectory fs r dirPath urlPath (mkState wd http.newResponseWriter t)
    = (Val tt, s')
    /\ http.Status (http.finish (writer s')) = 200
    /\ http.Body (http.finish (writer s'))
       = executeTemplate (listingOf urlPath entries).
Proof.
  intros E.
  destruct (serveDirectory_reply fs r dirPath urlPath wd t) as (s' & Run & Fin).
  exists s'. split; [exact Run|]. rewrite Fin. unfold dirReply. rewrite E.
  split; reflexivity.
Qed.


(** C8: every child of a listed directory whose metadata can be read has a
    row in the listing, and its link is [/], then the listing's URL path and
    [/] when that path is not empty, then the child's name, then [/] exactly
    when the child is a directory. *)
Theorem listed_child_url (fs : FileServer) (r : http.Request)
  (dirPath urlPath : gostring) (wd : World) (t : list Syscall)
  (entries : list os.DirEntry) :
  ReadDir wd dirPath = os.Ok entries ->
  exists s' files,
    serveDirectory fs r dirPath urlPath (mkState wd http.newResponseWriter t)
    = (Val tt, s')
    /\ http.Body (http.finish (writer s'))
       = executeTemplate (mkDirectoryListing urlPath files)
    /\ (forall f, In f files -> URL f = navigableURL urlPath (Name f) (IsDir f))
    /\ (forall entry info,
          In entry entries -> os.Info entry = os.Ok info ->
          exists f, In f files
                    /\ Name f = os.entryName entry
                    /\ IsDir f = os.entryIsDir entry
                    /\ URL f = navigableURL urlPath (os.entryName entry)
                                 (os.entryIsDir entry)).
Proof.
  intros E.
  destruct (serveDirectory_listing fs r dirPath urlPath wd t entries E)
    as (s' & Run & _ & Body).
  exists s', (sort.Slice lessFile (listedFiles urlPath entries)).
  split; [exact Run|]. split; [exact Body|]. split.
  - intros f I.
    apply (Permutation_in _ (Slice_Permutation lessFile _)) in I.
    apply listedFiles_In in I. destruct I as (entry & info & _ & _ & ->).
    apply entryFileInfo_URL.
  - intros entry info I Info.
    exists (entryFileInfo urlPath entry info). split.
    + apply (Permutation_in _ (Permutation_sym (Slice_Permutation lessFile _))).
      apply listedFiles_In. eauto.
    + repeat split. apply entryFileInfo_URL.
Qed.

End Listing.



Lemma listed_child_url_witness :
  exists s' files,
    serveDirectory (H := plainRuntime) sampleServer (GET "/docs")
      "/srv/files/docs" "docs" (mkState sampleWorld http.newResponseWriter [])
    = (Val tt, s')
    /\ http.Body (http.finish (writer s'))
       = executeTemplate (H := plainRuntime) (mkDirectoryListing "docs" files)
    /\ (forall f, In f files -> URL f = navigableURL "docs" (Name f) (IsDir f))
    /\ (forall entry info,
          In entry
            [ os.mkDirEntry "a.md" false (os.Ok (regInfo "a.md" 1536));
              os.mkDirEntry "b.txt" false (os.Ok (regInfo "b.txt" 12));
              os.mkDirEntry "gone" false (os.Err noSuchFile);
              os.mkDirEntry "sub" true (os.Ok (dirInfo "sub")) ] ->
          os.Info entry = os.Ok info ->
          exists f, In f files
                    /\ Name f = os.entryName entry
                    /\ IsDir f = os.entryIsDir entry
                    /\ URL f = navigableURL "docs" (os.entryName entry)
                                 (os.entryIsDir entry)).
Proof.
  apply (listed_child_url (H := plainRuntime)). reflexivity.
Defined.

(** ** The parent-directory row *)

Lemma Join_Split (p : gostring) (sep : ascii) :
  strings.Join (strings.Split p sep) [sep] = p.
Proof.
  induction p as [|c p IH]; [reflexivity|].
  simpl strings.Split. destruct (byte_eqb c sep) eqn:E.
  - apply byte_eqb_eq in E. subst.
    rewrite Join_cons by apply Split_nonempty. rewrite IH. reflexivity.
  - destruct (strings.Split p sep) as [|h t] eqn:S.
    + exfalso. exact (Split_nonempty _ _ S).
    + destruct t as [|h' t].
      * simpl in *. congruence.
      * rewrite Join_cons by discriminate.
        rewrite Join_cons in IH by discriminate.
        rewrite <- IH. reflexivity.
Qed.

Lemma Split_trailing_separator (p : gostring) :
  strings.Split (p ++ [Separator]) Separator = strings.Split p Separator ++ [[]].
Proof. apply (Split_app p [] Separator). Qed.

Lemma dirname_trailing_separator (p : gostring) : dirname (p ++ "/") = p.
Proof.
  unfold dirname. change ("/" : gostring) with [Separator].
  change "/"%char with Separator.
  rewrite Split_trailing_separator, length_app. simpl List.length.
  destruct (List.length (strings.Split p Separator)) as [|n] eqn:L.
  - apply length_zero_iff_nil in L. exfalso. exact (Split_nonempty _ _ L).
  - replace (S n + 1 <=? 1)%nat with false by (symmetry; apply Nat.leb_gt; lia).
    replace (S n + 1 - 1)%nat with (List.length (strings.Split p Separator)) by lia.
    rewrite firstn_app, firstn_all, Nat.sub_diag. simpl firstn.
    rewrite app_nil_r. apply Join_Split.
Qed.

Section ParentRow.
Context `{Runtime}.

(** C4, what the code does: for a listed path that ends in a separator --
    the form of every directory link the listings themselves emit -- the
    parent-directory row links to the listed path itself, not to its parent;
    for [a/b] it links to [a/], a link without the leading [/] that the
    links of the children carry. *)
Theorem parent_link_of_listed_directory :
  (forall p, parentHref (p ++ "/") = hrefEscaper p ++ "/")
  /\ parentHref "a/b" = hrefEscaper "a" ++ "/"
  /\ URL (entryFileInfo "a/b" (os.mkDirEntry "c" true (os.Ok (dirInfo "c")))
            (dirInfo "c")) = "/a/b/c/".
Proof.
  split; [|split; reflexivity].
  intros p. unfold parentHref. rewrite dirname_trailing_separator.
  change ("/" : gostring) with [Separator]. change "/"%char with Separator.
  rewrite Split_trailing_separator, length_app. simpl List.length.
  replace (_ =? 1)%nat with false; [reflexivity|].
  symmetry. apply Nat.eqb_neq.
  pose proof (Split_nonempty p Separator) as N.
  destruct (strings.Split p Separator); [congruence | simpl; lia].
Qed.

End ParentRow.

(** The listing of [docs] in the sample tree, asked for as [/docs/] (the
    link the root listing gives that directory): its parent row links to
    [docs/]. *)
Example parent_row_of_docs :
  exists resp,
    serve (H := plainRuntime) sampleServer sampleWorld (GET "/docs/")
    = Replied resp
    /\ strings.Contains (http.Body resp) ("<a href=" ++ dq ++ "docs/" ++ dq ++ ">")
       = true.
Proof. eexists. split; [reflexivity | vm_compute; reflexivity]. Qed.

(** ** [formatBytes] *)

Lemma float64_of_int64_exact (n : Z) :
  0 <= n < 2 ^ 53 -> float64_of_int64 n = mkFloat n 0.
Proof.
  intros [L U]. unfold float64_of_int64.
  rewrite Z.abs_eq by exact L.
  replace (Z.log2 n + 1 <=? 53) with true; [reflexivity|].
  symmetry. apply Z.leb_le.
  destruct (Z.eq_dec n 0) as [->|N]; [simpl; lia|].
  assert (Z.log2 n < 53) by (apply Z.log2_lt_pow2; lia). lia.
Qed.

(** Rounding to the nearest multiple of [2 ^ sh]. *)
Lemma float64_of_int64_rounded (n : Z) :
  2 ^ 53 <= n < 2 ^ 63 ->
  exists m sh,
    float64_of_int64 n = mkFloat m sh
    /\ 0 <= m /\ 1 <= sh <= 10
    /\ 2 * Z.abs (m * 2 ^ sh - n) <= 2 ^ sh.
Proof.
  intros [L U]. unfold float64_of_int64.
  rewrite Z.abs_eq by lia.
  assert (53 <= Z.log2 n) as Lo by (apply Z.log2_le_pow2; lia).
  assert (Z.log2 n < 63) as Hi by (apply Z.log2_lt_pow2; lia).
  replace (Z.log2 n + 1 <=? 53) with false by (symmetry; apply Z.leb_gt; lia).
  set (sh := Z.log2 n + 1 - 53).
  assert (1 <= sh <= 10) as Sh by (unfold sh; lia).
  rewrite Z.shiftr_div_pow2 by lia.
  replace (Z.sgn n) with 1 by (symmetry; apply Z.sgn_pos; lia).
  set (D := 2 ^ sh). set (half := 2 ^ (sh - 1)).
  assert (D = 2 * half) as DH.
  { unfold D, half. replace sh with (1 + (sh - 1)) at 1 by lia.
    rewrite Z.pow_add_r by lia. reflexivity. }
  assert (0 < half) as HP by (apply Z.pow_pos_nonneg; lia).
  pose proof (Z.div_mod n D ltac:(lia)) as DM.
  pose proof (Z.mod_pos_bound n D ltac:(lia)) as MB.
  assert (0 <= n / D) as QP by (apply Z.div_pos; lia).
  set (q := n / D) in *. set (r := n mod D) in *.
  eexists _, sh. split; [reflexivity|].
  destruct ((half <? r) || ((r =? half) && Z.odd q)) eqn:Up.
  - split; [lia|]. split; [exact Sh|].
    apply orb_true_iff in Up. destruct Up as [Up|Up].
    + apply Z.ltb_lt in Up. nia.
    + apply andb_true_iff in Up. destruct Up as [Up _].
      apply Z.eqb_eq in Up. nia.
  - split; [lia|]. split; [exact Sh|].
    apply orb_false_iff in Up. destruct Up as [Up _].
    apply Z.ltb_ge in Up. nia.
Qed.

(** The tenths printed for [m / 2 ^ k] are nearest to it. *)
Lemma tenths_nearest (m k : Z) :
  0 <= m -> 0 <= k ->
  2 * Z.abs (2 ^ k * fmt.tenths (mkFloat m (- k)) - 10 * m) <= 2 ^ k.
Proof.
  intros M K. unfold fmt.tenths. cbn [mant exp].
  rewrite (Z.abs_eq m) by exact M.
  rewrite Z.opp_involutive, (Z.max_r (- k) 0), (Z.max_l k 0) by lia.
  rewrite Z.pow_0_r, Z.mul_1_r.
  set (D := 2 ^ k).
  assert (0 < D) as DP by (apply Z.pow_pos_nonneg; lia).
  pose proof (Z.div_mod (10 * m) D ltac:(lia)) as DM.
  pose proof (Z.mod_pos_bound (10 * m) D DP) as MB.
  set (q := 10 * m / D) in *. set (r := (10 * m) mod D) in *.
  destruct ((D <? 2 * r) || ((2 * r =? D) && Z.odd q)) eqn:Up.
  - apply orb_true_iff in Up. destruct Up as [Up|Up].
    + apply Z.ltb_lt in Up. nia.
    + apply andb_true_iff in Up. destruct Up as [Up _].
      apply Z.eqb_eq in Up. nia.
  - apply orb_false_iff in Up. destruct Up as [Up _].
    apply Z.ltb_ge in Up. nia.
Qed.

Lemma Sprintf_1f_nonnegative (m e : Z) :
  0 <= m -> fmt.Sprintf_1f (mkFloat m e) = fmt.oneDecimal (fmt.tenths (mkFloat m e)).
Proof.
  intros M. unfold fmt.Sprintf_1f. cbn [mant].
  replace (m <? 0) with false by (symmetry; apply Z.ltb_ge; exact M).
  reflexivity.
Qed.

Lemma formatBytes_KB (n : Z) :
  1024 <= n < 1048576 ->
  formatBytes n = fmt.oneDecimal (fmt.tenths (mkFloat n (- 10))) ++ " KB"
  /\ 2 * Z.abs (1024 * fmt.tenths (mkFloat n (- 10)) - 10 * n) <= 1024.
Proof.
  intros [L U]. split.
  - unfold formatBytes.
    replace (n <? 1024) with false by (symmetry; apply Z.ltb_ge; lia).
    replace (n <? 1024 * 1024) with true by (symmetry; apply Z.ltb_lt; lia).
    rewrite float64_of_int64_exact by lia.
    unfold float64_div_pow2. cbn [mant exp].
    rewrite Sprintf_1f_nonnegative by lia. reflexivity.
  - apply (tenths_nearest n 10); lia.
Qed.

Lemma formatBytes_MB (n : Z) :
  1048576 <= n < 2 ^ 63 ->
  exists t,
    formatBytes n = fmt.oneDecimal t ++ " MB"
    /\ 2 * Z.abs (1048576 * t - 10 * n) <= 1048576 + 10240
    /\ (n < 2 ^ 53 -> 2 * Z.abs (1048576 * t - 10 * n) <= 1048576).
Proof.
  intros [L U].
  assert (formatBytes n
          = fmt.Sprintf_1f (float64_div_pow2 (float64_of_int64 n) 20) ++ " MB")
    as Shape.
  { unfold formatBytes.
    replace (n <? 1024) with false by (symmetry; apply Z.ltb_ge; lia).
    replace (n <? 1024 * 1024) with false by (symmetry; apply Z.ltb_ge; lia).
    reflexivity. }
  destruct (Z_lt_ge_dec n (2 ^ 53)) as [Small|Big].
  - exists (fmt.tenths (mkFloat n (- 20))).
    rewrite Shape, float64_of_int64_exact by lia.
    unfold float64_div_pow2. cbn [mant exp].
    rewrite Sprintf_1f_nonnegative by lia.
    pose proof (tenths_nearest n 20 ltac:(lia) ltac:(lia)) as T.
    change (2 ^ 20) with 1048576 in T.
    split; [reflexivity|].
    split; [eapply Z.le_trans; [exact T | lia] | intros _; exact T].
  - destruct (float64_of_int64_rounded n ltac:(lia)) as (m & sh & F & M & Sh & R).
    exists (fmt.tenths (mkFloat m (- (20 - sh)))).
    rewrite Shape, F. unfold float64_div_pow2. cbn [mant exp].
    replace (sh - 20) with (- (20 - sh)) by lia.
    rewrite Sprintf_1f_nonnegative by exact M.
    split; [reflexivity|]. split; [|intros Small; lia].
    pose proof (tenths_nearest m (20 - sh) M ltac:(lia)) as T.
    set (t := fmt.tenths _) in *.
    set (P := 2 ^ (20 - sh)) in *. set (S := 2 ^ sh) in *.
    assert (P * S = 1048576) as PS.
    { unfold P, S. rewrite <- Z.pow_add_r by lia.
      replace (20 - sh + sh) with 20 by lia. reflexivity. }
    assert (0 < S <= 1024) as SB.
    { unfold S. split; [apply Z.pow_pos_nonneg; lia|].
      change 1024 with (2 ^ 10). apply Z.pow_le_mono_r; lia. }
    assert (0 < P) as PP by (apply Z.pow_pos_nonneg; lia).
    replace (1048576 * t - 10 * n)
      with (S * (P * t - 10 * m) + 10 * (m * S - n)) by (rewrite <- PS; ring).
    pose proof (Z.abs_triangle (S * (P * t - 10 * m)) (10 * (m * S - n))) as Tri.
    rewrite !Z.abs_mul, (Z.abs_eq S), (Z.abs_eq 10) in Tri by lia.
    nia.
Qed.

Section SizeColumn.
Context `{Runtime}.

(** C7: the size printed for [n] bytes is [n] and [B] below 1024; the
    kibibytes to one decimal and [KB] from 1024 up to 1048575 -- the tenth
    nearest to [n / 1024]; the mebibytes to one decimal and [MB] from 1048576
    on -- the tenth nearest to [n / 1048576], up to the rounding of [n] to a
    [float64] beyond [2 ^ 53]; the row of a directory shows [-] instead. *)
Theorem formatBytes_ranges (n : Z) :
  0 <= n < 2 ^ 63 ->
  (n < 1024 -> formatBytes n = fmt.decimal n ++ " B")
  /\ (1024 <= n < 1048576 ->
      exists t, formatBytes n = fmt.oneDecimal t ++ " KB"
                /\ 2 * Z.abs (1024 * t - 10 * n) <= 1024)
  /\ (1048576 <= n ->
      exists t, formatBytes n = fmt.oneDecimal t ++ " MB"
                /\ 2 * Z.abs (1048576 * t - 10 * n) <= 1048576 + 10240
                /\ (n < 2 ^ 53 -> 2 * Z.abs (1048576 * t - 10 * n) <= 1048576))
  /\ (forall f, IsDir f = true -> sizeCell f = "-")
  /\ (forall f, IsDir f = false -> sizeCell f = htmlEscaper (formatBytes (Size f))).
Proof.
  intros [L U]. split; [|split; [|split; [|split]]].
  - intros B. unfold formatBytes.
    replace (n <? 1024) with true by (symmetry; apply Z.ltb_lt; lia).
    reflexivity.
  - intros B. eexists. apply (formatBytes_KB n B).
  - intros B. apply formatBytes_MB. lia.
  - intros f D. unfold sizeCell. rewrite D. reflexivity.
  - intros f D. unfold sizeCell. rewrite D. reflexivity.
Qed.

End SizeColumn.

Example formatBytes_samples :
  map formatBytes
    [0; 1023; 1024; 1280; 1536; 1792; 1048575; 1048576; 123456789;
     9007199254740993]
  = strs [ "0 B"; "1023 B"; "1.0 KB"; "1.2 KB"; "1.5 KB"; "1.8 KB";
           "1024.0 KB"; "1.0 MB"; "117.7 MB"; "8589934592.0 MB" ].
Proof. vm_compute. reflexivity. Qed.

Lemma formatBytes_ranges_witness :
  (1536 < 1024 -> formatBytes 1536 = fmt.decimal 1536 ++ " B")
  /\ (1024 <= 1536 < 1048576 ->
      exists t, formatBytes 1536 = fmt.oneDecimal t ++ " KB"
                /\ 2 * Z.abs (1024 * t - 10 * 1536) <= 1024)
  /\ (1048576 <= 1536 ->
      exists t, formatBytes 1536 = fmt.oneDecimal t ++ " MB"
                /\ 2 * Z.abs (1048576 * t - 10 * 1536) <= 1048576 + 10240
                /\ (1536 < 2 ^ 53 ->
                    2 * Z.abs (1048576 * t - 10 * 1536) <= 1048576))
  /\ (forall f, IsDir f = true -> sizeCell (H := plainRuntime) f = "-")
  /\ (forall f, IsDir f = false ->
                sizeCell (H := plainRuntime) f = formatBytes (Size f)).
Proof.
  apply (formatBytes_ranges (H := plainRuntime) 1536). lia.
Defined.

(** * Further properties of the handler *)

(** ** What a resolved request is answered *)

Lemma resolved_has_prefix (fs : FileServer) (wd : World) (r : http.Request)
  (absPath : gostring) :
  ServePathResolves wd (servePath fs) ->
  traversalCheck (requestPath r) = false ->
  absolute wd (filepath.Join [servePath fs; requestPath r]) = os.Ok absPath ->
  strings.HasPrefix absPath (serveRootOf wd fs) = true.
Proof.
  intros WF T A.
  unfold traversalCheck in T. apply orb_false_iff in T. destruct T as [C P].
  destruct (candidate_within_root wd _ _ _ WF C P A) as (root & R & B).
  unfold serveRootOf. rewrite R.
  unfold boundary_contained in B. apply andb_true_iff in B. apply B.
Qed.

Section Answers.
Context `{Runtime}.

(** Past both checks the reply is decided by [os.Stat] alone. *)
Lemma serve_resolved (fs : FileServer) (wd : World) (r : http.Request)
  (absPath : gostring) :
  ServePathResolves wd (servePath fs) ->
  traversalCheck (requestPath r) = false ->
  absolute wd (filepath.Join [servePath fs; requestPath r]) = os.Ok absPath ->
  serve fs wd r =
    match Stat wd absPath with
    | os.Err err => if os.IsNotExist err then Replied notFound else Aborted
    | os.Ok info =>
        if os.IsDir info
        then Replied (dirReply wd absPath (requestPath r))
        else Replied (fileReply wd absPath)
    end.
Proof.
  intros WF T A. rewrite serve_replyOf. unfold replyOf.
  rewrite T, A, (resolved_has_prefix fs wd r absPath WF T A). reflexivity.
Qed.

(** A request that resolves to a regular file which can be opened is
    answered 200 with the bytes of the file; the content type comes from the
    base name of the resolved path, the content length from the size the open
    file reports, and the disposition names the base name as an attachment. *)
Theorem existing_file_is_served (fs : FileServer) (wd : World)
  (r : http.Request) (absPath : gostring) (info finfo : os.FileInfo)
  (file : os.File) :
  ServePathResolves wd (servePath fs) ->
  traversalCheck (requestPath r) = false ->
  absolute wd (filepath.Join [servePath fs; requestPath r]) = os.Ok absPath ->
  Stat wd absPath = os.Ok info ->
  os.IsDir info = false ->
  Open wd absPath = os.Ok file ->
  os.fileStat file = os.Ok finfo ->
  serve fs wd r =
    Replied
      (http.mkResponse 200
         [("Content-Type" : gostring, getMimeType (filepath.Base absPath));
          ("Content-Length" : gostring, fmt.decimal (os.Size finfo));
          ("Content-Disposition" : gostring,
           "attachment; filename=" ++ dq ++ filepath.Base absPath ++ dq)]
         (os.fileContents file)).
Proof.
  intros WF T A S D O F.
  rewrite (serve_resolved fs wd r absPath WF T A), S, D.
  unfold fileReply. rewrite O, F. reflexivity.
Qed.

(** A request that resolves to a directory which can be read is answered
    200 with the HTML listing of that directory under the request path as it
    was sent (one leading separator removed). *)
Theorem existing_directory_is_listed (fs : FileServer) (wd : World)
  (r : http.Request) (absPath : gostring) (info : os.FileInfo)
  (entries : list os.DirEntry) :
  ServePathResolves wd (servePath fs) ->
  traversalCheck (requestPath r) = false ->
  absolute wd (filepath.Join [servePath fs; requestPath r]) = os.Ok absPath ->
  Stat wd absPath = os.Ok info ->
  os.IsDir info = true ->
  ReadDir wd absPath = os.Ok entries ->
  serve fs wd r =
    Replied
      (http.mkResponse 200
         [("Content-Type" : gostring, "text/html; charset=utf-8" : gostring)]
         (executeTemplate
            (mkDirectoryListing (requestPath r)
               (sort.Slice lessFile (listedFiles (requestPath r) entries))))).
Proof.
  intros WF T A S D R.
  rewrite (serve_resolved fs wd r absPath WF T A), S, D.
  unfold dirReply. rewrite R. reflexivity.
Qed.


(** The handler replies with status 200, 403, 404 or 500 and nothing else,
    and every reply carries a [Content-Type] header; every reply other than
    200 is plain text that browsers are told not to sniff. *)
Theorem reply_statuses (fs : FileServer) (wd : World) (r : http.Request)
  (resp : http.Response) :
  serve fs wd r = Replied resp ->
  In (http.Status resp) [200; 403; 404; 500]
  /\ (exists ct, In ("Content-Type" : gostring, ct) (http.Headers resp))
  /\ (http.Status resp <> 200 ->
      http.Headers resp
      = [("Content-Type" : gostring, "text/plain; charset=utf-8" : gostring);
         ("X-Content-Type-Options" : gostring, "nosniff" : gostring)]).
Proof.
  rewrite serve_replyOf. unfold replyOf, fileReply, dirReply.
  intros E.
  assert ((exists msg code,
             In code [403; 404; 500] /\ resp = errorReply msg code)
          \/ (exists hs body,
                resp = http.mkResponse 200 hs body
                /\ exists ct, In ("Content-Type" : gostring, ct) hs)) as Shape.
  { destruct (traversalCheck _);
      [injection E as <-; left; do 2 eexists; split; [|reflexivity]; simpl; auto|].
    destruct (absolute wd _) as [absPath|];
      [|injection E as <-; left; do 2 eexists; split; [|reflexivity]; simpl; auto].
    destruct (negb _);
      [injection E as <-; left; do 2 eexists; split; [|reflexivity]; simpl; auto|].
    destruct (Stat wd absPath) as [info|err].
    - destruct (os.IsDir info).
      + destruct (ReadDir wd absPath); injection E as <-.
        * right. do 2 eexists. split; [reflexivity|]. eexists. left. reflexivity.
        * left. do 2 eexists. split; [|reflexivity]. simpl; auto.
      + destruct (Open wd absPath) as [file|]; [destruct (os.fileStat file)|];
          injection E as <-.
        * right. do 2 eexists. split; [reflexivity|]. eexists. left. reflexivity.
        * left. do 2 eexists. split; [|reflexivity]. simpl; auto.
        * left. do 2 eexists. split; [|reflexivity]. simpl; auto.
    - destruct (os.IsNotExist err); [|discriminate].
      injection E as <-. left. do 2 eexists. split; [|reflexivity]. simpl; auto. }
  destruct Shape as [(msg & code & I & ->) | (hs & body & -> & ct & I)].
  - cbn [http.Status http.Headers errorReply]. split; [simpl in *; tauto|].
    split; [eexists; left; reflexivity | reflexivity].
  - cbn [http.Status http.Headers]. split; [left; reflexivity|].
    split; [eauto | congruence].
Qed.

(** Of a request the handler reads the URL path and nothing else: what it
    writes for two requests with the same path is the same, whatever their
    methods, headers and bodies.  No method is refused; a [POST] or a
    [DELETE] is answered like a [GET]. *)
Theorem reply_depends_on_path_only (fs : FileServer) (wd : World)
  (r1 r2 : http.Request) :
  http.URL_Path r1 = http.URL_Path r2 ->
  serve fs wd r1 = serve fs wd r2.
Proof.
  intros E. rewrite !serve_replyOf. unfold replyOf, requestPath.
  rewrite E. reflexivity.
Qed.

End Answers.

(** ** The calls the handler makes *)

Lemma state_eta (s : State) : mkState (world s) (writer s) (trace s) = s.
Proof. destruct s; reflexivity. Qed.

Section Calls.
Context `{Runtime}.

(** With an absolute serve path, resolution asks the operating system
    nothing: the candidate is the cleaned concatenation and the serve root the
    cleaned serve path. *)
Lemma ServeHTTP_absolute (fs : FileServer) (r : http.Request) (s : State) :
  filepath.IsAbs (servePath fs) = true ->
  traversalCheck (requestPath r) = false ->
  ServeHTTP fs r s =
    if negb (strings.HasPrefix
               (filepath.Clean (servePath fs ++ Separator :: requestPath r))
               (filepath.Clean (servePath fs)))
    then http_Error "Forbidden: Path outside serve directory"
           http.StatusForbidden s
    else dispatch fs r
           (filepath.Clean (servePath fs ++ Separator :: requestPath r))
           (requestPath r) s.
Proof.
  intros Abs T.
  assert (servePath fs <> []) as N by (destruct (servePath fs); discriminate).
  assert (filepath.isRooted (servePath fs ++ Separator :: requestPath r) = true)
    as R by (rewrite isRooted_app_nonempty, <- IsAbs_isRooted; assumption).
  unfold traversalCheck, requestPath in *. unfold ServeHTTP. rewrite T.
  unfold bind at 1. rewrite filepath_Abs_run.
  unfold absolute. rewrite Join_pair by exact N.
  rewrite IsAbs_isRooted, isRooted_Clean, R by (destruct (servePath fs); discriminate).
  rewrite Clean_rooted_idempotent by exact R.
  unfold bind at 1. rewrite filepath_Abs_run. cbn [world writer trace].
  unfold absolute. rewrite Abs, !app_nil_r, state_eta.
  unfold dispatch. destruct (negb _); reflexivity.
Qed.

(** A request for a path that does not exist is answered 404 after a single
    [stat] of the candidate path: nothing is opened or read. *)
Theorem missing_path_is_404 (fs : FileServer) (wd : World) (r : http.Request)
  (err : os.error) :
  filepath.IsAbs (servePath fs) = true ->
  traversalCheck (requestPath r) = false ->
  Stat wd (filepath.Clean (servePath fs ++ Separator :: requestPath r))
  = os.Err err ->
  os.IsNotExist err = true ->
  exists s',
    ServeHTTP fs r (mkState wd http.newResponseWriter []) = (Val tt, s')
    /\ http.finish (writer s') = notFound
    /\ http.Status notFound = 404
    /\ trace s'
       = [SysStat (filepath.Clean (servePath fs ++ Separator :: requestPath r))].
Proof.
  intros Abs T S N.
  assert (servePath fs <> []) as NE by (destruct (servePath fs); discriminate).
  rewrite ServeHTTP_absolute by assumption.
  set (cand := filepath.Clean _) in *.
  assert (strings.HasPrefix cand (filepath.Clean (servePath fs)) = true) as P.
  { pose proof (resolved_has_prefix fs wd r cand (or_introl Abs) T) as Q.
    unfold serveRootOf, absolute in Q. rewrite Abs in Q. apply Q.
    rewrite Join_pair by exact NE. fold cand.
    assert (filepath.isRooted cand = true) as RC.
    { unfold cand. rewrite isRooted_Clean by (destruct (servePath fs); discriminate).
      rewrite isRooted_app_nonempty, <- IsAbs_isRooted; assumption. }
    rewrite IsAbs_isRooted, RC. f_equal. unfold cand.
    apply Clean_rooted_idempotent.
    rewrite isRooted_app_nonempty, <- IsAbs_isRooted; assumption. }
  rewrite P. cbn [negb].
  unfold dispatch, bind, syscall. cbn [world writer trace].
  rewrite S. cbn [os.resultIsNotExist]. rewrite N.
  eexists. split; [reflexivity|]. repeat split.
Qed.

(** [serveFile] never panics, and it closes the file whenever it has opened
    it: after a failed [Open] nothing else is called; after a successful one
    the file is asked its size, read only if that succeeded, and closed
    last. *)
Theorem serveFile_closes_what_it_opens (fs : FileServer) (r : http.Request)
  (filePath : gostring) (s : State) :
  fst (serveFile fs r filePath s) = Val tt
  /\ trace (snd (serveFile fs r filePath s))
     = trace s
       ++ SysOpen filePath
          :: match Open (world s) filePath with
             | os.Err _ => []
             | os.Ok file =>
                 SysFstat
                 :: match os.fileStat file with
                    | os.Ok _ => [SysRead]
                    | os.Err _ => []
                    end
                 ++ [SysClose]
             end.
Proof.
  destruct s as [wd w t]. cbn [world trace].
  set (run := serveFile fs r filePath _).
  assert (exists w', run = (Val tt, mkState wd w'
            (t ++ SysOpen filePath
                  :: match Open wd filePath with
                     | os.Err _ => []
                     | os.Ok file =>
                         SysFstat
                         :: match os.fileStat file with
                            | os.Ok _ => [SysRead]
                            | os.Err _ => []
                            end
                         ++ [SysClose]
                     end))) as [w' ->]; [|split; reflexivity].
  unfold run, serveFile. unfold bind at 1. unfold syscall at 1.
  cbn [world writer trace].
  destruct (Open wd filePath) as [file|err]; [|eexists; reflexivity].
  cbv beta iota zeta delta
    [bind syscall onWriter http_Error world writer trace].
  destruct (os.fileStat file) as [info|err];
    rewrite <- !app_assoc; eexists; reflexivity.
Qed.

(** [serveDirectory] never panics; it reads the directory once and then
    asks for the metadata of each entry once, in the order the entries were
    returned, and of none when the directory could not be read. *)
Theorem serveDirectory_calls (fs : FileServer) (r : http.Request)
  (dirPath urlPath : gostring) (s : State) :
  fst (serveDirectory fs r dirPath urlPath s) = Val tt
  /\ trace (snd (serveDirectory fs r dirPath urlPath s))
     = trace s
       ++ SysReadDir dirPath
          :: match ReadDir (world s) dirPath with
             | os.Err _ => []
             | os.Ok entries => map (fun e => SysLstat (os.entryName e)) entries
             end.
Proof.
  destruct s as [wd w t]. cbn [world trace].
  set (run := serveDirectory fs r dirPath urlPath _).
  assert (exists w', run = (Val tt, mkState wd w'
            (t ++ SysReadDir dirPath
                  :: match ReadDir wd dirPath with
                     | os.Err _ => []
                     | os.Ok entries =>
                         map (fun e => SysLstat (os.entryName e)) entries
                     end))) as [w' ->]; [|split; reflexivity].
  unfold run, serveDirectory. unfold bind at 1. unfold syscall at 1.
  cbn [world writer trace].
  destruct (ReadDir wd dirPath) as [entries|err]; [|eexists; reflexivity].
  unfold bind at 1. rewrite rangeEntries_run. cbn [world writer trace].
  cbv beta iota zeta delta
    [generateDirectoryHTML bind onWriter world writer trace].
  rewrite <- app_assoc. eexists; reflexivity.
Qed.

End Calls.

(** ** [dirname] and the link of the parent row *)

Lemma Split_last_element (d e : gostring) :
  ~ In Separator e ->
  strings.Split (d ++ Separator :: e) Separator
  = strings.Split d Separator ++ [e].
Proof. intros N. rewrite Split_app, (Split_plain e) by exact N. reflexivity. Qed.

Section ParentLink.
Context `{Runtime}.

(** [dirname] removes the last element of a path and the separator before
    it, and gives the empty string for a path without separator; so the link
    of the parent row is [/] for a path without separator and otherwise the
    listed path up to and including its last separator. *)
Theorem parent_link_shape :
  (forall p, ~ In Separator p -> dirname p = [] /\ parentHref p = "/")
  /\ (forall d e, ~ In Separator e ->
        dirname (d ++ "/" ++ e) = d
        /\ parentHref (d ++ "/" ++ e) = hrefEscaper d ++ "/").
Proof.
  split.
  - intros p N. unfold parentHref, dirname.
    change "/"%char with Separator. rewrite Split_plain by exact N.
    split; reflexivity.
  - intros d e N.
    assert (dirname (d ++ "/" ++ e) = d) as D.
    { unfold dirname. change ("/" : gostring) with [Separator].
      change "/"%char with Separator.
      change (d ++ [Separator] ++ e) with (d ++ Separator :: e).
      rewrite Split_last_element, length_app by exact N. simpl List.length.
      pose proof (Split_nonempty d Separator) as NE.
      destruct (List.length (strings.Split d Separator)) as [|n] eqn:L.
      - apply length_zero_iff_nil in L. contradiction.
      - replace (S n + 1 <=? 1)%nat with false by (symmetry; apply Nat.leb_gt; lia).
        replace (S n + 1 - 1)%nat with (List.length (strings.Split d Separator))
          by lia.
        rewrite firstn_app, firstn_all, Nat.sub_diag. simpl firstn.
        rewrite app_nil_r. apply Join_Split. }
    split; [exact D|].
    unfold parentHref. rewrite D.
    change ("/" : gostring) with [Separator]. change "/"%char with Separator.
    change (d ++ [Separator] ++ e) with (d ++ Separator :: e).
    rewrite Split_last_element, length_app by exact N. simpl List.length.
    replace (_ =? 1)%nat with false; [reflexivity|].
    symmetry. apply Nat.eqb_neq.
    pose proof (Split_nonempty d Separator) as NE.
    destruct (strings.Split d Separator); [congruence | simpl; lia].
Qed.

End ParentLink.

(** ** The order of a listing does not depend on the order of [ReadDir] *)

(** Leaving out the entries that cannot be read keeps the names distinct. *)
Lemma readable_names_NoDup (entries : list os.DirEntry) :
  NoDup (map os.entryName entries) ->
  NoDup (map os.entryName (filter readable entries)).
Proof.
  intros Distinct.
  induction entries as [|entry rest Keep]; simpl in *; [constructor|].
  apply NoDup_cons_iff in Distinct. destruct Distinct as [Fresh Distinct].
  destruct (readable entry); simpl; [|apply Keep, Distinct].
  apply NoDup_cons; [|apply Keep, Distinct].
  intros Again. apply Fresh.
  apply in_map_iff in Again. destruct Again as (other & Same & Listed).
  apply filter_In in Listed. apply in_map_iff. exists other. tauto.
Qed.

Lemma listedFiles_Permutation (urlPath : gostring)
  (entries entries' : list os.DirEntry) :
  Permutation entries entries' ->
  Permutation (listedFiles urlPath entries) (listedFiles urlPath entries').
Proof.
  unfold listedFiles.
  induction 1 as [|e l l' P IH|a b l|l1 l2 l3 P1 IH1 P2 IH2]; simpl.
  - constructor.
  - apply Permutation_app_head, IH.
  - rewrite !app_assoc. apply Permutation_app_tail, Permutation_app_comm.
  - etransitivity; eassumption.
Qed.

Section ListingOrder.
Context `{Runtime}.

(** Two directories that hold the same entries, with pairwise distinct
    names, are listed alike whatever order [os.ReadDir] returns the entries
    in: the comparison of lines 184-189 leaves the sort no choice. *)
Theorem listing_independent_of_entry_order (fs : FileServer) (r : http.Request)
  (dirPath urlPath : gostring) (wd wd' : World)
  (entries entries' : list os.DirEntry) :
  ReadDir wd dirPath = os.Ok entries ->
  ReadDir wd' dirPath = os.Ok entries' ->
  Permutation entries entries' ->
  NoDup (map os.entryName entries) ->
  exists s s',
    serveDirectory fs r dirPath urlPath (mkState wd http.newResponseWriter [])
    = (Val tt, s)
    /\ serveDirectory fs r dirPath urlPath (mkState wd' http.newResponseWriter [])
       = (Val tt, s')
    /\ http.finish (writer s') = http.finish (writer s).
Proof.
  intros R R' P N.
  destruct (serveDirectory_reply fs r dirPath urlPath wd []) as (s & Run & Fin).
  destruct (serveDirectory_reply fs r dirPath urlPath wd' []) as (s' & Run' & Fin').
  exists s, s'. split; [exact Run|]. split; [exact Run'|].
  rewrite Fin, Fin'. unfold dirReply. rewrite R, R'. do 2 f_equal.
  unfold listingOf. f_equal.
  apply sorted_listing_unique.
  - rewrite listedFiles_names. apply readable_names_NoDup, N.
  - etransitivity; [apply listedFiles_Permutation, P|].
    symmetry. apply Slice_Permutation.
  - eapply StronglySorted_impl; [intros a b; apply notAfter_listingOrder|].
    apply Slice_sorted; [exact lessFile_asym | exact lessFile_notAfter_trans].
Qed.

End ListingOrder.

(** ** Links and the paths they resolve to *)

Lemma Contains_separator_app (a b : gostring) :
  strings.Contains (a ++ Separator :: b) ".."
  = strings.Contains a ".." || strings.Contains b "..".
Proof.
  apply Bool.eq_iff_eq_true.
  rewrite orb_true_iff, !Contains_spec. split.
  - intros (x & y & E).
    change (".." : gostring) with ["."%char; "."%char] in *.
    apply app_eq_app in E. destruct E as (l & [[Ea Ey] | [Ex Eb]]).
    + destruct l as [|c1 [|c2 l]]; simpl in Ey; try discriminate.
      inversion Ey; subst. left. exists x, l. reflexivity.
    + destruct l as [|c l]; simpl in Eb; [discriminate|].
      inversion Eb; subst. right. exists l, y. reflexivity.
  - intros [(x & y & ->) | (x & y & ->)].
    + exists x, (y ++ Separator :: b). rewrite <- !app_assoc. reflexivity.
    + exists (a ++ Separator :: x), y. rewrite <- app_assoc. reflexivity.
Qed.

Lemma HasPrefix_nil (s : gostring) : strings.HasPrefix s [] = true.
Proof. destruct s; reflexivity. Qed.

Lemma TrimPrefix_separator (x : gostring) :
  strings.TrimPrefix (Separator :: x) "/" = x.
Proof.
  unfold strings.TrimPrefix. simpl strings.HasPrefix.
  rewrite HasPrefix_nil. reflexivity.
Qed.

Lemma traversalCheck_trailing_separator (p : gostring) :
  p <> [] -> traversalCheck (p ++ [Separator]) = traversalCheck p.
Proof.
  intros N. unfold traversalCheck. rewrite Contains_separator_app.
  change (strings.Contains [] "..") with false. rewrite orb_false_r.
  destruct p as [|c p]; [congruence|]. simpl strings.HasPrefix.
  rewrite !HasPrefix_nil. reflexivity.
Qed.

Lemma Clean_trailing_separator (p : gostring) :
  p <> [] -> filepath.Clean (p ++ [Separator]) = filepath.Clean p.
Proof.
  intros N. rewrite !Clean_nonempty by (destruct p; [congruence | discriminate]).
  rewrite isRooted_app_nonempty by exact N. f_equal.
  apply (cleanElems_app _ p []).
Qed.

Lemma Join_trailing_separator (sp p : gostring) :
  p <> [] ->
  filepath.Join [sp; p ++ [Separator]] = filepath.Join [sp; p].
Proof.
  intros N. destruct sp as [|c sp].
  - destruct p as [|d p]; [congruence|]. apply (Clean_trailing_separator (d :: p)).
    discriminate.
  - rewrite !Join_pair by discriminate.
    replace ((c :: sp) ++ Separator :: p ++ [Separator])
      with (((c :: sp) ++ Separator :: p) ++ [Separator])
      by (rewrite <- app_assoc; reflexivity).
    apply Clean_trailing_separator. discriminate.
Qed.

Lemma cleanElems_Clean_rooted (p : gostring) :
  filepath.isRooted p = true ->
  filepath.cleanElems true (filepath.Clean p) = filepath.cleanElems true p.
Proof.
  intros R. rewrite (Clean_rooted p R).
  set (st := filepath.cleanElems true p).
  assert (stackOK st) as S by apply cleanElems_stackOK.
  assert (noDotDot st) as D by (apply fold_cleanStep_rooted_noDotDot; constructor).
  unfold filepath.cleanElems at 1.
  rewrite fold_Split_render_rooted by exact S.
  rewrite fold_cleanStep_no_dotdot by (apply Forall_rev, D).
  rewrite app_nil_r.
  assert (filter keptb (rev st) = rev st) as ->; [|apply rev_involutive].
  apply forallb_filter_id. apply forallb_forall. intros e I.
  apply in_rev in I. unfold stackOK in S. rewrite Forall_forall in S.
  destruct (S e I) as [[Ne De] _]. unfold keptb. rewrite De.
  destruct e; [congruence | reflexivity].
Qed.

(** The URL that lines 168-178 compute for a child is undone by lines 77-86:
    for a child whose name is an ordinary path element without [..] in it, a
    request whose decoded path [r.URL.Path] is that URL passes the traversal
    check and is joined to the very path that the child's name joined to the
    listed directory gives.  This is about the computed URL as the decoded
    path of a request; which request a client makes of the [href] that the
    template renders of it is not part of the handler. *)
Theorem child_url_resolves_to_child (sp urlPath name : gostring) (isDir : bool)
  (r : http.Request) :
  filepath.IsAbs sp = true ->
  traversalCheck urlPath = false ->
  name <> [] -> ~ In Separator name ->
  strings.Contains name ".." = false -> filepath.isDot name = false ->
  http.URL_Path r = navigableURL urlPath name isDir ->
  traversalCheck (requestPath r) = false
  /\ filepath.Join [sp; requestPath r]
     = filepath.Join [filepath.Join [sp; urlPath]; name].
Proof.
  intros Abs T NE NS ND NDot U.
  unfold traversalCheck in T. apply orb_false_iff in T. destruct T as [TC TP].
  assert (sp <> []) as NSP by (destruct sp; discriminate).
  assert (filepath.isRooted sp = true) as RS by (rewrite <- IsAbs_isRooted; exact Abs).
  assert (strings.HasPrefix name "/" = false) as NP.
  { destruct name as [|c name]; [congruence|]. simpl. rewrite HasPrefix_nil, andb_true_r.
    apply byte_eqb_neq. intros ->. apply NS. left; reflexivity. }
  assert (keptb name = true) as KN
    by (unfold keptb; rewrite NDot; destruct name; [congruence | reflexivity]).
  (* the request path, by the shape of the link *)
  set (base := if isEmpty urlPath then name else urlPath ++ Separator :: name).
  assert (requestPath r = base ++ (if isDir then [Separator] else [])) as RP.
  { unfold requestPath. rewrite U. unfold navigableURL, base.
    change ("/" : gostring) with [Separator].
    change ([Separator] ++ ?x) with (Separator :: x).
    rewrite TrimPrefix_separator.
    destruct (isEmpty urlPath), isDir; rewrite <- ?app_assoc; reflexivity. }
  assert (base <> []) as NB.
  { unfold base. destruct (isEmpty urlPath); [exact NE|].
    destruct urlPath; discriminate. }
  assert (traversalCheck base = false) as TB.
  { unfold traversalCheck, base. destruct urlPath as [|c u]; simpl isEmpty; cbv iota.
    - rewrite ND, NP. reflexivity.
    - rewrite Contains_separator_app, TC, ND. simpl orb.
      simpl strings.HasPrefix in *. rewrite HasPrefix_nil in *. exact TP. }
  assert (filepath.Join [sp; base]
          = filepath.Join [filepath.Join [sp; urlPath]; name]) as JB.
  { assert (Forall (fun e => filepath.isDotDot e = false)
              (strings.Split urlPath Separator)) as FU
      by (apply no_dotdot_elements, TC).
    assert (Forall (fun e => filepath.isDotDot e = false)
              (strings.Split name Separator)) as FN
      by (apply no_dotdot_elements, ND).
    rewrite (Join_pair sp urlPath NSP).
    assert (filepath.isRooted (sp ++ Separator :: urlPath) = true) as RU
      by (rewrite isRooted_app_nonempty; assumption).
    rewrite (Join_pair (filepath.Clean (sp ++ Separator :: urlPath)) name)
      by (rewrite Clean_nonempty by (destruct sp; discriminate);
          apply render_nonempty, cleanElems_stackOK).
    rewrite (Clean_rooted_extend (filepath.Clean (sp ++ Separator :: urlPath)))
      by (try assumption; rewrite isRooted_Clean by (destruct sp; discriminate);
          exact RU).
    rewrite cleanElems_Clean_rooted, cleanElems_app by exact RU.
    rewrite fold_cleanStep_no_dotdot by exact FU.
    rewrite (Split_plain name) by exact NS. simpl filter. rewrite KN. simpl rev.
    rewrite Join_pair by exact NSP.
    unfold base. destruct urlPath as [|c u]; simpl isEmpty; cbv iota.
    - rewrite Clean_rooted_extend by assumption.
      rewrite (Split_plain name) by exact NS. simpl filter. rewrite KN. reflexivity.
    - rewrite Clean_rooted_extend.
      + rewrite Split_last_element by exact NS.
        rewrite filter_app, rev_app_distr. simpl filter. rewrite KN.
        rewrite <- app_assoc. reflexivity.
      + exact RS.
      + rewrite Split_last_element by exact NS.
        apply Forall_app. split; [exact FU|].
        rewrite (Split_plain name) in FN by exact NS. exact FN. }
  rewrite RP. destruct isDir.
  - rewrite traversalCheck_trailing_separator, Join_trailing_separator by exact NB.
    split; assumption.
  - rewrite app_nil_r. split; assumption.
Qed.

Section Links.
Context `{Runtime}.

(** A child with [..] anywhere in its name is listed like any other, but
    the link the listing gives it is answered 403: such a file cannot be
    fetched through the server. *)
Theorem dotdot_in_name_is_unreachable (fs : FileServer) (wd : World)
  (urlPath name : gostring) (isDir : bool) (r : http.Request) :
  (exists a b, name = a ++ ".." ++ b) ->
  http.URL_Path r = navigableURL urlPath name isDir ->
  serve fs wd r = Replied forbiddenTraversal.
Proof.
  intros (a & b & ->) U.
  assert (traversalCheck (requestPath r) = true) as T.
  { unfold traversalCheck. rewrite traversalCheck_dotdot; [reflexivity|].
    rewrite U. unfold navigableURL.
    destruct (isEmpty urlPath).
    - exists ("/" ++ a), (b ++ (if isDir then "/" : gostring else [])).
      rewrite <- !app_assoc. reflexivity.
    - exists ("/" ++ urlPath ++ "/" ++ a),
        (b ++ (if isDir then "/" : gostring else [])).
      rewrite <- !app_assoc. reflexivity. }
  unfold serve. rewrite serve_traversal by exact T. reflexivity.
Qed.

(** A separator added at the end of the request path changes nothing,
    unless the path resolves to a directory: a file is served under its URL
    with a trailing [/] just the same, and so are the error replies. *)
Theorem trailing_separator_same_reply (fs : FileServer) (wd : World)
  (r r' : http.Request) :
  requestPath r <> [] ->
  requestPath r' = requestPath r ++ "/" ->
  (forall absPath info,
     absolute wd (filepath.Join [servePath fs; requestPath r]) = os.Ok absPath ->
     Stat wd absPath = os.Ok info -> os.IsDir info = false) ->
  serve fs wd r' = serve fs wd r.
Proof.
  intros N E NotDir. rewrite !serve_replyOf. unfold replyOf. rewrite E.
  change ("/" : gostring) with [Separator].
  rewrite traversalCheck_trailing_separator, Join_trailing_separator by exact N.
  destruct (traversalCheck (requestPath r)); [reflexivity|].
  destruct (absolute wd _) as [absPath|] eqn:A; [|reflexivity].
  destruct (negb _); [reflexivity|].
  destruct (Stat wd absPath) as [info|] eqn:S; [|reflexivity].
  rewrite (NotDir absPath info eq_refl S). reflexivity.
Qed.

End Links.

(** ** Startup *)

(** What [filepath.Abs] returns is rooted and clean, the working directory
    being rooted. *)
Lemma absolute_rooted_clean (wd : World) (path p : gostring) :
  WorkingDirectoryRooted wd ->
  absolute wd path = os.Ok p ->
  filepath.isRooted p = true /\ filepath.Clean p = p.
Proof.
  intros WF A. unfold absolute in A.
  destruct (filepath.IsAbs path) eqn:Abs.
  - apply Ok_injective in A. subst p. rewrite IsAbs_isRooted in Abs.
    split; [|apply Clean_rooted_idempotent, Abs].
    rewrite isRooted_Clean by (destruct path; discriminate). exact Abs.
  - destruct (Getwd wd) as [dir|err] eqn:G; [|discriminate].
    apply Ok_injective in A. subst p. pose proof (WF _ G) as RD.
    assert (dir <> []) as ND by (destruct dir; discriminate).
    rewrite Join_pair by exact ND.
    assert (filepath.isRooted (dir ++ Separator :: path) = true) as RJ
      by (rewrite isRooted_app_nonempty; assumption).
    split; [|apply Clean_rooted_idempotent, RJ].
    rewrite isRooted_Clean by (destruct dir; discriminate). exact RJ.
Qed.

Lemma main_run (port : Z) (folder : gostring) (s : State) :
  exists t,
    main port folder s =
      (Val
         (if isEmpty folder then
            Exit 1 ("Error: --folder is required" ++ newline)
          else
            match absolute (world s) folder with
            | os.Err err =>
                Exit 1 ("Error: Invalid folder path: " ++ os.Error err ++ newline)
            | os.Ok servePath =>
                if os.resultIsNotExist (Stat (world s) servePath) then
                  Exit 1 ("Error: Folder '" ++ servePath ++ "' does not exist"
                          ++ newline)
                else
                  ListenAndServe
                    ("Serving files from: " ++ servePath ++ newline
                     ++ "Server running on: http://localhost:"
                     ++ fmt.Sprintf_d port ++ newline
                     ++ "Press Ctrl+C to stop the server" ++ newline)
                    (":" ++ fmt.Sprintf_d port)
                    (mkFileServer servePath)
            end),
       mkState (world s) (writer s) (trace s ++ t)).
Proof.
  unfold main. destruct (isEmpty folder).
  - exists []. rewrite app_nil_r, state_eta. reflexivity.
  - unfold bind at 1. rewrite filepath_Abs_run.
    destruct (absolute (world s) folder) as [p|err].
    + unfold bind, syscall, ret. cbn [world writer trace].
      destruct (os.resultIsNotExist (Stat (world s) p));
        rewrite <- app_assoc; eexists; reflexivity.
    + eexists. reflexivity.
Qed.

(** Whenever [main] starts the server, the serve path it hands the handler
    is rooted and clean, and [os.Stat] did not report it missing: the handler
    never has to ask for the working directory. *)
Theorem main_serves_a_rooted_clean_path (port : Z) (folder : gostring)
  (s s' : State) (out addr : gostring) (fs : FileServer) :
  WorkingDirectoryRooted (world s) ->
  main port folder s = (Val (ListenAndServe out addr fs), s') ->
  folder <> []
  /\ filepath.IsAbs (servePath fs) = true
  /\ filepath.Clean (servePath fs) = servePath fs
  /\ os.resultIsNotExist (Stat (world s) (servePath fs)) = false
  /\ addr = ":" ++ fmt.decimal port.
Proof.
  intros WF Run. destruct (main_run port folder s) as [t E].
  rewrite E in Run. clear E.
  destruct folder as [|c folder]; [discriminate|]. cbn [isEmpty] in Run.
  destruct (absolute (world s) (c :: folder)) as [p|err] eqn:A; [|discriminate].
  destruct (os.resultIsNotExist (Stat (world s) p)) eqn:N; [discriminate|].
  injection Run as _ <- <- _.
  destruct (absolute_rooted_clean _ _ _ WF A) as [R C]. cbn [servePath].
  rewrite IsAbs_isRooted. repeat split; try assumption. discriminate.
Qed.

(** [main] never panics.  It gives up with status 1 exactly when the folder
    flag is empty, the folder cannot be made absolute, or [os.Stat] reports
    that it does not exist -- any other failure of [os.Stat] does not stop the
    server from starting. *)
Theorem main_exits_or_serves (port : Z) (folder : gostring) (s : State) :
  ((exists out, fst (main port folder s) = Val (Exit 1 out))
   \/ (exists out addr fs,
         fst (main port folder s) = Val (ListenAndServe out addr fs)))
  /\ ((exists out addr fs,
         fst (main port folder s) = Val (ListenAndServe out addr fs))
      <-> folder <> []
          /\ exists p, absolute (world s) folder = os.Ok p
                       /\ os.resultIsNotExist (Stat (world s) p) = false).
Proof.
  destruct (main_run port folder s) as [t E]. rewrite E. cbn [fst]. clear E.
  destruct folder as [|c folder]; cbn [isEmpty].
  - split; [left; eauto|]. split.
    + intros (out & addr & fs & E). discriminate.
    + intros [N _]. congruence.
  - destruct (absolute (world s) (c :: folder)) as [p|err].
    + destruct (os.resultIsNotExist (Stat (world s) p)) eqn:N.
      * split; [left; eauto|]. split.
        -- intros (out & addr & fs & E). discriminate.
        -- intros (_ & q & Q & NQ). apply Ok_injective in Q. subst. congruence.
      * split; [right; eauto|]. split; [|eauto].
        intros _. split; [discriminate | eauto].
    + split; [left; eauto|]. split.
      * intros (out & addr & fs & E). discriminate.
      * intros (_ & q & Q & _). discriminate.
Qed.

Section FolderIsAFile.
Context `{Runtime}.

(** [main] does not ask whether the folder is a directory: given the path
    of a regular file it starts the server all the same, and every request for
    the root path is then answered with that file as a download. *)
Theorem folder_may_be_a_file (port : Z) (folder p : gostring) (wd : World)
  (info finfo : os.FileInfo) (file : os.File) (r : http.Request) :
  WorkingDirectoryRooted wd ->
  folder <> [] ->
  absolute wd folder = os.Ok p ->
  Stat wd p = os.Ok info -> os.IsDir info = false ->
  Open wd p = os.Ok file -> os.fileStat file = os.Ok finfo ->
  requestPath r = [] ->
  (exists out,
     fst (main port folder (mkState wd http.newResponseWriter []))
     = Val (ListenAndServe out (":" ++ fmt.decimal port) (mkFileServer p)))
  /\ serve (mkFileServer p) wd r =
       Replied
         (http.mkResponse 200
            [("Content-Type" : gostring, getMimeType (filepath.Base p));
             ("Content-Length" : gostring, fmt.decimal (os.Size finfo));
             ("Content-Disposition" : gostring,
              "attachment; filename=" ++ dq ++ filepath.Base p ++ dq)]
            (os.fileContents file)).
Proof.
  intros WF NF A S D O F RP.
  destruct (absolute_rooted_clean _ _ _ WF A) as [R C].
  assert (p <> []) as NP by (destruct p; discriminate).
  split.
  - destruct (main_run port folder (mkState wd http.newResponseWriter [])) as [t E].
    rewrite E. cbn [fst world].
    destruct folder; [congruence|]. cbn [isEmpty]. rewrite A, S.
    cbn [os.resultIsNotExist]. eexists. reflexivity.
  - assert (absolute wd (filepath.Join [servePath (mkFileServer p); requestPath r])
            = os.Ok p) as AP.
    { rewrite RP. cbn [servePath]. rewrite Join_pair by exact NP.
      rewrite (Clean_trailing_separator p NP), C.
      unfold absolute. rewrite IsAbs_isRooted, R, C. reflexivity. }
    rewrite (serve_resolved (mkFileServer p) wd r p); try assumption.
    + rewrite S, D. unfold fileReply. rewrite O, F. reflexivity.
    + left. cbn [servePath]. rewrite IsAbs_isRooted. exact R.
    + rewrite RP. reflexivity.
Qed.

End FolderIsAFile.

(** ** The further properties on the sample tree *)

(** The sample tree with the entries of [docs] returned in another order. *)
Definition shuffledWorld : World :=
  mkWorld (Getwd sampleWorld) sampleStat sampleOpen
    (fun name =>
       match sampleReadDir name with
       | os.Ok entries => os.Ok (rev entries)
       | os.Err err => os.Err err
       end).

(** A host on which every [stat] is refused. *)
Definition lockedWorld : World :=
  mkWorld (os.Ok ("/home/u" : gostring)) (fun _ => os.Err permissionDenied)
    sampleOpen sampleReadDir.

Lemma existing_file_is_served_witness :
  serve (H := plainRuntime) sampleServer sampleWorld (GET "/index.html")
  = Replied
      (http.mkResponse 200
         [("Content-Type" : gostring,
           getMimeType (filepath.Base "/srv/files/index.html"));
          ("Content-Length" : gostring, fmt.decimal 5);
          ("Content-Disposition" : gostring,
           "attachment; filename=" ++ dq
           ++ filepath.Base "/srv/files/index.html" ++ dq)]
         "<p/>
").
Proof.
  apply (existing_file_is_served (H := plainRuntime) sampleServer sampleWorld
           (GET "/index.html") "/srv/files/index.html"
           (regInfo "index.html" 5) (regInfo "index.html" 5)
           (os.mkFile (os.Ok (regInfo "index.html" 5)) "<p/>
")); try reflexivity.
  left. reflexivity.
Defined.

Lemma existing_directory_is_listed_witness :
  exists entries,
    ReadDir sampleWorld "/srv/files/docs" = os.Ok entries
    /\ serve (H := plainRuntime) sampleServer sampleWorld (GET "/docs")
       = Replied
           (http.mkResponse 200
              [("Content-Type" : gostring, "text/html; charset=utf-8" : gostring)]
              (executeTemplate (H := plainRuntime)
                 (mkDirectoryListing (requestPath (GET "/docs"))
                    (sort.Slice lessFile
                       (listedFiles (requestPath (GET "/docs")) entries))))).
Proof.
  eexists. split; [reflexivity|].
  apply (existing_directory_is_listed (H := plainRuntime) sampleServer sampleWorld
           (GET "/docs") "/srv/files/docs" (dirInfo "docs")); try reflexivity.
  left. reflexivity.
Defined.


Lemma reply_statuses_witness :
  In (http.Status forbiddenTraversal) [200; 403; 404; 500]
  /\ (exists ct, In ("Content-Type" : gostring, ct) (http.Headers forbiddenTraversal))
  /\ (http.Status forbiddenTraversal <> 200 ->
      http.Headers forbiddenTraversal
      = [("Content-Type" : gostring, "text/plain; charset=utf-8" : gostring);
         ("X-Content-Type-Options" : gostring, "nosniff" : gostring)]).
Proof.
  apply (reply_statuses (H := plainRuntime) sampleServer sampleWorld
           (GET "/docs/../x") forbiddenTraversal).
  reflexivity.
Defined.

Lemma reply_depends_on_path_only_witness :
  serve (H := plainRuntime) sampleServer sampleWorld (GET "/docs")
  = serve (H := plainRuntime) sampleServer sampleWorld
      (http.mkRequest "DELETE" "/docs"
         [("Content-Type" : gostring, "text/plain" : gostring)] "x").
Proof.
  apply (reply_depends_on_path_only (H := plainRuntime)). reflexivity.
Defined.

Lemma missing_path_is_404_witness :
  exists s',
    ServeHTTP (H := plainRuntime) sampleServer (GET "/nothing")
      (mkState sampleWorld http.newResponseWriter []) = (Val tt, s')
    /\ http.finish (writer s') = notFound
    /\ http.Status notFound = 404
    /\ trace s'
       = [SysStat (filepath.Clean
                     (servePath sampleServer ++ Separator
                      :: requestPath (GET "/nothing")))].
Proof.
  apply (missing_path_is_404 (H := plainRuntime) sampleServer sampleWorld
           (GET "/nothing") noSuchFile); reflexivity.
Defined.

Lemma listing_independent_of_entry_order_witness :
  exists s s',
    serveDirectory (H := plainRuntime) sampleServer (GET "/docs")
      "/srv/files/docs" "docs" (mkState sampleWorld http.newResponseWriter [])
    = (Val tt, s)
    /\ serveDirectory (H := plainRuntime) sampleServer (GET "/docs")
         "/srv/files/docs" "docs" (mkState shuffledWorld http.newResponseWriter [])
       = (Val tt, s')
    /\ http.finish (writer s') = http.finish (writer s).
Proof.
  eapply (listing_independent_of_entry_order (H := plainRuntime)).
  - reflexivity.
  - reflexivity.
  - apply Permutation_rev.
  - repeat constructor; simpl; intuition discriminate.
Defined.

Lemma child_url_resolves_to_child_witness :
  traversalCheck (requestPath (GET "/docs/a.md")) = false
  /\ filepath.Join ["/srv/files" : gostring; requestPath (GET "/docs/a.md")]
     = filepath.Join [filepath.Join ["/srv/files" : gostring; "docs" : gostring];
                      "a.md" : gostring].
Proof.
  apply (child_url_resolves_to_child "/srv/files" "docs" "a.md" false
           (GET "/docs/a.md")); try reflexivity.
  - discriminate.
  - simpl. intuition discriminate.
Defined.

Lemma dotdot_in_name_is_unreachable_witness :
  serve (H := plainRuntime) sampleServer sampleWorld (GET "/docs/notes..txt")
  = Replied forbiddenTraversal.
Proof.
  apply (dotdot_in_name_is_unreachable (H := plainRuntime) sampleServer
           sampleWorld "docs" "notes..txt" false (GET "/docs/notes..txt")).
  - exists ("notes" : gostring), ("txt" : gostring). reflexivity.
  - reflexivity.
Defined.

Lemma trailing_separator_same_reply_witness :
  serve (H := plainRuntime) sampleServer sampleWorld (GET "/index.html/")
  = serve (H := plainRuntime) sampleServer sampleWorld (GET "/index.html").
Proof.
  apply (trailing_separator_same_reply (H := plainRuntime)).
  - discriminate.
  - reflexivity.
  - intros absPath info A S.
    apply Ok_injective in A. subst absPath.
    apply Ok_injective in S. subst info. reflexivity.
Defined.

Lemma main_serves_a_rooted_clean_path_witness :
  ("files//" : gostring) <> []
  /\ filepath.IsAbs "/home/u/files" = true
  /\ filepath.Clean "/home/u/files" = "/home/u/files"
  /\ os.resultIsNotExist (Stat lockedWorld "/home/u/files") = false
  /\ (":8000" : gostring) = ":" ++ fmt.decimal 8000.
Proof.
  refine (main_serves_a_rooted_clean_path 8000 "files//"
            (mkState lockedWorld http.newResponseWriter [])
            _ _ ":8000" (mkFileServer "/home/u/files") _ _).
  - intros dir E. apply Ok_injective in E. subst. reflexivity.
  - reflexivity.
Defined.

Lemma folder_may_be_a_file_witness :
  (exists out,
     fst (main 8000 "/srv/files/index.html"
            (mkState sampleWorld http.newResponseWriter []))
     = Val (ListenAndServe out (":" ++ fmt.decimal 8000)
              (mkFileServer "/srv/files/index.html")))
  /\ serve (H := plainRuntime) (mkFileServer "/srv/files/index.html")
       sampleWorld (GET "/")
     = Replied
         (http.mkResponse 200
            [("Content-Type" : gostring,
              getMimeType
                (filepath.Base "/srv/files/index.html"));
             ("Content-Length" : gostring, fmt.decimal 5);
             ("Content-Disposition" : gostring,
              "attachment; filename=" ++ dq
              ++ filepath.Base "/srv/files/index.html" ++ dq)]
            "<p/>
").
Proof.
  apply (folder_may_be_a_file (H := plainRuntime) 8000 "/srv/files/index.html"
           "/srv/files/index.html" sampleWorld (regInfo "index.html" 5)
           (regInfo "index.html" 5)
           (os.mkFile (os.Ok (regInfo "index.html" 5)) "<p/>
") (GET "/")); try reflexivity.
  - intros dir E. apply Ok_injective in E. subst. reflexivity.
  - discriminate.
Defined.
